(** * OIG Cloud dashboard front end: series merging, chart options, chart loader

    A shallow embedding of the JavaScript of the repository's dashboard layer:

    - [ForecastCard]: the [combine*Data] methods of [OigBatteryForecastCard],
      which merge the actual and predicted attribute buckets of a sensor into
      one series per metric;
    - [ChartLoader]: the CDN-only [ApexChartsLoader], the second of the two
      loaders of www/chart-config.js;
    - [ChartConfig]: the first one, with the local, cdn and auto strategies;
    - [Dashboard]: [OigCloudDashboard], its initialisation and the options of
      the battery chart.

    JavaScript numbers are modelled by the rational they denote ([Q]); an
    instant is its [getTime()] value, a number of milliseconds since the epoch
    ([Z]).  [NaN], the infinities and invalid dates are outside the model.
    An asynchronous call is modelled by the state it leaves and the way its
    promise settles; what the network does is a parameter. *)

From Stdlib Require Import ZArith QArith Qabs List String Ascii Bool Lia.
From Stdlib Require Import Sorted Permutation DecimalString.
Import ListNotations.

Local Open Scope string_scope.
Local Open Scope list_scope.
Local Open Scope Z_scope.

(* ===================================================================== *)
(** ** Values of the host language *)
(* ===================================================================== *)

Module JS.

(** The values an attribute read from a sensor state can hold. *)
Inductive value :=
| Undefined
| Null
| Bool (b : bool)
| Num (q : Q)
| Str (s : string).

(** ToBoolean: [undefined], [null], [false], [0] and the empty string are
    falsy. *)
Definition truthy (v : value) : bool :=
  match v with
  | Undefined | Null => false
  | Bool b => b
  | Num q => negb (Qnum q =? 0)
  | Str s => negb (String.eqb s "")
  end.

(** [a || b] *)
Definition or_else (a b : value) : value := if truthy a then a else b.

(** [new Error(message)]: the only property the code sets is the message. *)
Record Error := mkError { message : string }.

(** How a promise settles. *)
Inductive settled :=
| Resolved
| Rejected (e : Error).

(** One call of a [console] method with its arguments rendered as text. *)
Inductive consoleEntry :=
| console_log (args : list string)
| console_warn (args : list string)
| console_error (args : list string).

(** *** Array.prototype.sort

    The sort is stable; [cmp a b <= 0] leaves [a] before [b].  For a
    consistent comparator the stable sorted arrangement is unique, so the
    algorithm (insertion, from the right) is immaterial. *)
Section Sort.
Context {A : Type} (cmp : A -> A -> Z).

Fixpoint insert (a : A) (l : list A) : list A :=
  match l with
  | [] => [a]
  | b :: r => if cmp a b <=? 0 then a :: l else b :: insert a r
  end.

Definition sort (l : list A) : list A := fold_right insert [] l.

End Sort.

(** *** Number.prototype.toFixed

    [toFixed digits v] for [|v| < 10^21]: the integer [n] nearest to
    [|v| * 10^digits] (the larger one on a tie), written in decimal with
    [digits] fraction digits, behind a minus sign when [v < 0]. *)
Definition decimal (z : Z) : string :=
  NilZero.string_of_uint (N.to_uint (Z.to_N z)).

Fixpoint zeros (n : nat) : string :=
  match n with
  | O => ""
  | S k => ("0" ++ zeros k)%string
  end.

Definition pad (width : nat) (s : string) : string :=
  (zeros (width - String.length s) ++ s)%string.

(** The integer nearest to [a * scale], the larger one on a tie. *)
Definition nearest (scale : Z) (a : Q) : Z :=
  (2 * Qnum a * scale + Zpos (Qden a)) / (2 * Zpos (Qden a)).

Definition toFixed (digits : nat) (v : Q) : string :=
  let scale := 10 ^ Z.of_nat digits in
  let n := nearest scale (Qabs v) in
  let sign := if Qnum v <? 0 then "-" else "" in
  let frac :=
    if Nat.eqb digits 0 then ""
    else ("." ++ pad digits (decimal (n mod scale)))%string in
  (sign ++ decimal (n / scale) ++ frac)%string.

(** The double quote character, as a string. *)
Definition dquote : string := String (ascii_of_nat 34) EmptyString.

(** *** Date

    [Date_parse_utc] is [new Date(s).getTime()] on the strings
    [YYYY-MM-DDTHH:MM:SSZ]; it is the instance the worked examples use.  The
    definitions below take the parser as a parameter. *)
Definition digit (c : ascii) : Z := Z.of_nat (nat_of_ascii c) - 48.

Fixpoint number (s : string) (acc : Z) : Z :=
  match s with
  | EmptyString => acc
  | String c r => number r (10 * acc + digit c)
  end.

Definition field (s : string) (from len : nat) : Z :=
  number (substring from len s) 0.

Definition days_from_civil (y m d : Z) : Z :=
  let y' := if m <=? 2 then y - 1 else y in
  let era := y' / 400 in
  let yoe := y' - era * 400 in
  let mp := if m <=? 2 then m + 9 else m - 3 in
  let doy := (153 * mp + 2) / 5 + d - 1 in
  let doe := yoe * 365 + yoe / 4 - yoe / 100 + doy in
  era * 146097 + doe - 719468.

Definition Date_parse_utc (s : string) : Z :=
  let days := days_from_civil (field s 0 4) (field s 5 2) (field s 8 2) in
  (((days * 24 + field s 11 2) * 60 + field s 14 2) * 60 + field s 17 2) * 1000.

End JS.

(* ===================================================================== *)
(** ** OigBatteryForecastCard: merging the attribute buckets *)
(* ===================================================================== *)

Module ForecastCard.

(** An attribute bucket: an object from timestamp strings to readings, as
    [Object.entries] enumerates it (insertion order). *)
Definition bucket := list (string * Q).

(** The attributes of the forecast entity the merges read; [None] is an
    attribute that is absent (or otherwise falsy). *)
Record attrs := mkAttrs {
  battery_yesterday_actual : option bucket;
  battery_today_actual : option bucket;
  battery_today_predicted : option bucket;
  battery_tomorrow_predicted : option bucket;
  solar_yesterday_actual : option bucket;
  solar_today_actual : option bucket;
  solar_today_predicted : option bucket;
  solar_tomorrow_predicted : option bucket;
  consumption_yesterday_actual : option bucket;
  consumption_today_actual : option bucket;
  consumption_today_predicted : option bucket;
  consumption_tomorrow_predicted : option bucket
}.

(** A chart point [{x, y}]. *)
Record point := mkPoint { x : Z; y : Q }.

(** [attrs.name || {}] *)
Definition orEmpty (o : option bucket) : bucket :=
  match o with
  | Some b => b
  | None => []
  end.

(** [o[k] = v]: an existing key keeps its place and takes the new value, a
    new key goes last. *)
Fixpoint assign (o : bucket) (k : string) (v : Q) : bucket :=
  match o with
  | [] => [(k, v)]
  | (k', v') :: r =>
      if String.eqb k' k then (k', v) :: r else (k', v') :: assign r k v
  end.

(** [{...a, ...b}] (the keys are timestamps, none is an array index, so
    the order is that of insertion) *)
Definition spread (a b : bucket) : bucket :=
  fold_left (fun o kv => assign o (fst kv) (snd kv)) (a ++ b) [].

(** The comparator [(a, b) => a.x - b.x]. *)
Definition byX (a b : point) : Z := x a - x b.

Section Merge.

(** [new Date(timestamp).getTime()] *)
Variable Date_parse : string -> Z.

(** [clock k] is what the [k]-th evaluation of [new Date()] returns. *)
Variable clock : nat -> Z.

(** The loops that push every entry of a bucket; [f] is applied to the
    reading. *)
Definition pushAll (f : Q -> Q) (b : bucket) : list point :=
  map (fun kv => mkPoint (Date_parse (fst kv)) (f (snd kv))) b.

(** The loops that push an entry only [if (time >= new Date())]; the clock is
    read once per entry, [k] counts the readings made so far. *)
Fixpoint pushFuture (f : Q -> Q) (k : nat) (b : bucket) : list point :=
  match b with
  | [] => []
  | (timestamp, value) :: r =>
      let time := Date_parse timestamp in
      if clock k <=? time
      then mkPoint time (f value) :: pushFuture f (S k) r
      else pushFuture f (S k) r
  end.

Definition identity (v : Q) : Q := v.

(** The points [combineBatteryData] pushes from the actual buckets, and from
    the predicted ones. *)
Definition batteryActual (a : attrs) : list point :=
  pushAll identity (orEmpty (battery_yesterday_actual a))
  ++ pushAll identity (orEmpty (battery_today_actual a)).

Definition batteryPredicted (k : nat) (a : attrs) : list point :=
  pushFuture identity k (orEmpty (battery_today_predicted a))
  ++ pushAll identity (orEmpty (battery_tomorrow_predicted a)).

Definition combineBatteryData (k : nat) (a : attrs) : list point :=
  JS.sort byX (batteryActual a ++ batteryPredicted k a).

Definition solarActual (a : attrs) : list point :=
  pushAll identity
    (spread (orEmpty (solar_yesterday_actual a)) (orEmpty (solar_today_actual a))).

Definition solarPredicted (k : nat) (a : attrs) : list point :=
  pushFuture identity k
    (spread (orEmpty (solar_today_predicted a)) (orEmpty (solar_tomorrow_predicted a))).

Definition combineSolarData (k : nat) (a : attrs) : list point :=
  JS.sort byX (solarActual a ++ solarPredicted k a).

Definition consumptionActual (a : attrs) : list point :=
  pushAll Qabs
    (spread (orEmpty (consumption_yesterday_actual a))
            (orEmpty (consumption_today_actual a))).

Definition consumptionPredicted (k : nat) (a : attrs) : list point :=
  pushFuture Qabs k
    (spread (orEmpty (consumption_today_predicted a))
            (orEmpty (consumption_tomorrow_predicted a))).

Definition combineConsumptionData (k : nat) (a : attrs) : list point :=
  JS.sort byX (consumptionActual a ++ consumptionPredicted k a).

End Merge.

(** Attributes with no bucket at all. *)
Definition noAttrs : attrs :=
  mkAttrs None None None None None None None None None None None None.

End ForecastCard.

(* ===================================================================== *)
(** ** The page the loaders act on *)
(* ===================================================================== *)

Module Browser.
Import JS.

(** The part of the page the loaders read and write. *)
Record window := mkWindow {
  ApexCharts : bool;            (** [window.ApexCharts] is defined *)
  scripts : list string;        (** [src] of the script elements of the document *)
  requests : list string;       (** sources whose fetch was started, oldest first *)
  console : list consoleEntry   (** console output, oldest first *)
}.

(** What ends the fetch of a script element: its [onload] (the script ran;
    [defines] tells whether it defines [window.ApexCharts]), its [onerror],
    or the timer set with [setTimeout], whichever fires first. *)
Inductive scriptEvent :=
| Onload (defines : bool)
| Onerror
| Timeout.

Definition log (e : consoleEntry) (w : window) : window :=
  mkWindow (ApexCharts w) (scripts w) (requests w) (console w ++ [e]).

(** [document.querySelector(`script[src="${src}"]`)] finds an element. *)
Definition hasScript (src : string) (w : window) : bool :=
  existsb (String.eqb src) (scripts w).

(** [document.head.appendChild(script)]: the element joins the document and
    its fetch starts. *)
Definition appendScript (src : string) (w : window) : window :=
  mkWindow (ApexCharts w) (scripts w ++ [src]) (requests w ++ [src]) (console w).

(** [script.remove()] *)
Definition removeScript (src : string) (w : window) : window :=
  mkWindow (ApexCharts w)
           (filter (fun s => negb (String.eqb src s)) (scripts w))
           (requests w) (console w).

(** The fetched script runs. *)
Definition execute (defines : bool) (w : window) : window :=
  mkWindow (ApexCharts w || defines) (scripts w) (requests w) (console w).

(** The warnings of a console, oldest first. *)
Definition warnings (c : list consoleEntry) : list (list string) :=
  flat_map (fun e => match e with console_warn a => [a] | _ => [] end) c.

(** A page with nothing loaded. *)
Definition blank : window := mkWindow false [] [] [].

End Browser.

(* ===================================================================== *)
(** ** ApexChartsLoader, CDN only (chart-loader.js) *)
(* ===================================================================== *)

Module ChartLoader.
Import JS Browser.

Record config := mkConfig {
  cdnSources : list string;
  loadTimeout : Z;
  debug : bool
}.

Definition OIG_CHART_CONFIG : config :=
  mkConfig
    [ "https://cdn.jsdelivr.net/npm/apexcharts@3.44.0/dist/apexcharts.min.js";
      "https://unpkg.com/apexcharts@3.44.0/dist/apexcharts.min.js";
      "https://cdnjs.cloudflare.com/ajax/libs/apexcharts/3.44.0/apexcharts.min.js" ]
    15000 false.

Definition debugLog (cfg : config) (msg : string) (w : window) : window :=
  if debug cfg then log (console_log [msg]) w else w.

Definition scriptExists : Error :=
  mkError "Script existuje, ale ApexCharts objekt není dostupný".

(** [loadScript], the body of the promise executor: it settles the promise
    at once ([Some]) when a script element with this source exists, and
    otherwise starts the fetch and leaves the promise pending ([None]). *)
Definition loadScript_executor (src : string) (w : window)
  : option settled * window :=
  if hasScript src w then
    if ApexCharts w then (Some Resolved, w)
    else (Some (Rejected scriptExists), w)
  else (None, appendScript src w).

(** [loadScript], the handlers: the event that ends the fetch settles the
    pending promise. *)
Definition loadScript_handler (src : string) (ev : scriptEvent) (w : window)
  : settled * window :=
  match ev with
  | Timeout =>
      (Rejected (mkError ("Timeout při načítání " ++ src)%string), removeScript src w)
  | Onload defines =>
      let w := execute defines w in
      if ApexCharts w then (Resolved, w)
      else (Rejected (mkError "ApexCharts objekt není dostupný po načtení skriptu"),
            removeScript src w)
  | Onerror =>
      (Rejected (mkError ("Chyba při načítání " ++ src)%string), removeScript src w)
  end.

(** [await this.loadScript(src)], where [env] tells how the fetch of each
    source ends. *)
Definition loadScript (env : string -> scriptEvent) (src : string) (w : window)
  : settled * window :=
  match loadScript_executor src w with
  | (Some r, w) => (r, w)
  | (None, w) => loadScript_handler src (env src) w
  end.

Definition exhausted : Error :=
  mkError "❌ Nepodařilo se načíst Apex Charts z žádného CDN zdroje".

(** The [catch] block of the loop, for the source of index [i] out of [n]. *)
Definition warned (source : string) (error : Error) : list string :=
  [("❌ Nepodařilo se načíst z " ++ source ++ ":")%string; message error].

Definition onCatch (source : string) (error : Error) (i n : nat) (w : window)
  : window :=
  let w := log (console_warn (warned source error)) w in
  if Nat.ltb i (n - 1) then log (console_log ["🔄 Zkouším další CDN zdroj..."]) w
  else w.

Definition trying (source : string) : string :=
  ("🔄 Zkouším načíst Apex Charts z: " ++ source)%string.

Definition loaded (source : string) : string :=
  ("✅ Apex Charts úspěšně načten z: " ++ source)%string.

(** The [for] loop of [load] from the source of index [i] on, [sources]
    being the sources left and [n] the length of the whole list. *)
Fixpoint loadLoop (env : string -> scriptEvent) (cfg : config)
  (sources : list string) (i n : nat) (w : window) : settled * window :=
  match sources with
  | [] => (Rejected exhausted, w)
  | source :: rest =>
      match loadScript env source (debugLog cfg (trying source) w) with
      | (Resolved, w) => (Resolved, debugLog cfg (loaded source) w)
      | (Rejected error, w) =>
          loadLoop env cfg rest (S i) n (onCatch source error i n w)
      end
  end.

Definition load (env : string -> scriptEvent) (cfg : config) (w : window)
  : settled * window :=
  if ApexCharts w then (Resolved, debugLog cfg "✅ Apex Charts už je načten" w)
  else loadLoop env cfg (cdnSources cfg) 0 (List.length (cdnSources cfg)) w.

(** *** One call of [load] as a task of the event loop

    A call runs until its first [await] of a pending promise and is resumed
    by the event that settles it; calls made meanwhile run in between. *)
Inductive task :=
| Awaiting (source : string) (rest : list string) (i n : nat)
| Finished (r : settled).

(** The loop, up to the first pending promise. *)
Fixpoint loopUntilPending (cfg : config) (sources : list string) (i n : nat)
  (w : window) : task * window :=
  match sources with
  | [] => (Finished (Rejected exhausted), w)
  | source :: rest =>
      match loadScript_executor source (debugLog cfg (trying source) w) with
      | (Some Resolved, w) => (Finished Resolved, debugLog cfg (loaded source) w)
      | (Some (Rejected error), w) =>
          loopUntilPending cfg rest (S i) n (onCatch source error i n w)
      | (None, w) => (Awaiting source rest i n, w)
      end
  end.

(** The call [load()], up to its first pending promise. *)
Definition start (cfg : config) (w : window) : task * window :=
  if ApexCharts w
  then (Finished Resolved, debugLog cfg "✅ Apex Charts už je načten" w)
  else loopUntilPending cfg (cdnSources cfg) 0 (List.length (cdnSources cfg)) w.

(** The event [ev] ends the fetch the task awaits. *)
Definition resume (cfg : config) (t : task) (ev : scriptEvent) (w : window)
  : task * window :=
  match t with
  | Finished r => (t, w)
  | Awaiting source rest i n =>
      match loadScript_handler source ev w with
      | (Resolved, w) => (Finished Resolved, debugLog cfg (loaded source) w)
      | (Rejected error, w) =>
          loopUntilPending cfg rest (S i) n (onCatch source error i n w)
      end
  end.

(** A task run to its end with nothing in between. *)
Definition complete (env : string -> scriptEvent) (cfg : config)
  (tw : task * window) : settled * window :=
  match tw with
  | (Finished r, w) => (r, w)
  | (Awaiting source rest i n, w) =>
      match loadScript_handler source (env source) w with
      | (Resolved, w) => (Resolved, debugLog cfg (loaded source) w)
      | (Rejected error, w) =>
          loadLoop env cfg rest (S i) n (onCatch source error i n w)
      end
  end.

End ChartLoader.

(* ===================================================================== *)
(** ** ApexChartsLoader with strategies (chart-config.js) *)
(* ===================================================================== *)

Module ChartConfig.
Import JS Browser.

Record config := mkConfig {
  loadStrategy : string;
  apexChartsVersion : string;
  cdnSources : list string;
  localPath : string;
  loadTimeout : Z;
  debug : bool
}.

Definition OIG_CHART_CONFIG : config :=
  mkConfig "auto" "3.44.0"
    [ "https://cdn.jsdelivr.net/npm/apexcharts@3.44.0/dist/apexcharts.min.js";
      "https://unpkg.com/apexcharts@3.44.0/dist/apexcharts.min.js";
      "https://cdnjs.cloudflare.com/ajax/libs/apexcharts/3.44.0/apexcharts.min.js" ]
    "/oig_cloud_static/apex-charts.min.js" 10000 false.

Definition debugLog (cfg : config) (msg : string) (w : window) : window :=
  if debug cfg then log (console_log [msg]) w else w.

(** [loadScript]: the element is always created and appended, and stays in
    the document whatever the outcome. *)
Definition loadScript (env : string -> scriptEvent) (src : string) (w : window)
  : settled * window :=
  let w := appendScript src w in
  match env src with
  | Timeout => (Rejected (mkError ("Timeout při načítání " ++ src)%string), w)
  | Onload defines =>
      let w := execute defines w in
      if ApexCharts w then (Resolved, w)
      else (Rejected (mkError "ApexCharts objekt není dostupný po načtení skriptu"), w)
  | Onerror => (Rejected (mkError ("Chyba při načítání " ++ src)%string), w)
  end.

Definition loadLocal (env : string -> scriptEvent) (cfg : config) (w : window)
  : settled * window :=
  loadScript env (localPath cfg) w.

Definition exhausted : Error :=
  mkError "Nepodařilo se načíst Apex Charts z žádného CDN zdroje".

Definition warned (source : string) (error : Error) : list string :=
  [("Nepodařilo se načíst z " ++ source ++ ":")%string; message error].

(** The [for ... of] loop of [loadCDN]. *)
Fixpoint loadCDN_from (env : string -> scriptEvent) (sources : list string)
  (w : window) : settled * window :=
  match sources with
  | [] => (Rejected exhausted, w)
  | source :: rest =>
      match loadScript env source w with
      | (Resolved, w) => (Resolved, w)
      | (Rejected error, w) =>
          loadCDN_from env rest (log (console_warn (warned source error)) w)
      end
  end.

Definition loadCDN (env : string -> scriptEvent) (cfg : config) (w : window)
  : settled * window :=
  loadCDN_from env (cdnSources cfg) w.

Definition loadAuto (env : string -> scriptEvent) (cfg : config) (w : window)
  : settled * window :=
  match loadLocal env cfg w with
  | (Resolved, w) => (Resolved, debugLog cfg "Apex Charts načten lokálně" w)
  | (Rejected _, w) =>
      let w := log (console_warn ["Lokální verze Apex Charts nedostupná, zkouším CDN"]) w in
      match loadCDN env cfg w with
      | (Resolved, w) => (Resolved, debugLog cfg "Apex Charts načten z CDN" w)
      | (Rejected error, w) => (Rejected error, w)
      end
  end.

Definition load (env : string -> scriptEvent) (cfg : config) (w : window)
  : settled * window :=
  if ApexCharts w then (Resolved, debugLog cfg "Apex Charts už je načten" w)
  else if String.eqb (loadStrategy cfg) "local" then loadLocal env cfg w
  else if String.eqb (loadStrategy cfg) "cdn" then loadCDN env cfg w
  else loadAuto env cfg w.

End ChartConfig.

(* ===================================================================== *)
(** ** OigCloudDashboard *)
(* ===================================================================== *)

Module Dashboard.
Import JS.

(** One element of [attrs.timeline_data]; a [spot_price_czk] of [null] is
    [None]. *)
Record timelinePoint := mkTimelinePoint {
  timestamp : string;
  solar_production_w : Q;
  battery_capacity_kwh : Q;
  spot_price_czk : option Q;
  is_charging : bool
}.

(** An object from strings to readings, as [Object.entries] enumerates it. *)
Definition bucket := list (string * Q).

(** The attributes the three charts read; [None] is an attribute that is
    absent (or falsy). *)
Record attributes := mkAttributes {
  timeline_data : option (list timelinePoint);
  max_capacity_kwh : value;
  current_battery_kwh : value;
  today_hourly_total_kw : option bucket;
  tomorrow_hourly_total_kw : option bucket;
  prices_czk_kwh : option bucket
}.

(** A state object of the host. *)
Record sensorData := mkSensorData { attrs : option attributes }.

(** A chart datum [[timestamp, value]]. *)
Definition datum : Type := Z * Q.

Record series := mkSeries {
  name : string;
  type : string;
  yAxisIndex : nat;
  data : list datum;
  color : string
}.

Record axis := mkAxis {
  opposite : bool;
  title_text : string;
  title_color : string;
  labels_color : string;
  min : Q;
  max : value
}.

(** An element of [annotations.points]. *)
Record pointAnnotation := mkPointAnnotation {
  x : Z;
  y : Q;
  marker_size : Z;
  label_text : string;
  label_background : string
}.

(** The [options] object of the battery chart: the fields that depend on
    the data or on the theme (the constant ones, such as heights, fills and
    formats, are left out); of the title, the value interpolated into its
    text. *)
Record batteryOptions := mkBatteryOptions {
  battery_series : list series;
  chart_background : string;
  chart_foreColor : string;
  grid_borderColor : string;
  xaxis_labels_color : string;
  yaxis : list axis;
  legend_labels_color : string;
  annotations_points : list pointAnnotation;
  title_value : value
}.

(** The [options] objects of the solar and of the spot price chart: their
    series. *)
Record plainOptions := mkPlainOptions {
  plain_type : string;
  plain_series : list (string * list datum)
}.

(** How [getDirectSensorData] ends: it returns the state object ([None]
    for [undefined], an entity the connection does not list), or it
    throws. *)
Inductive directRead :=
| Returned (sd : option sensorData)
| Threw (e : Error).

(** What the pages around the dashboard provide. *)
Record host := mkHost {
  (** [await this.getDirectSensorData(entityId)] *)
  getDirectSensorData : string -> directRead;
  (** [new Date(string).getTime()] *)
  Date_parse : string -> Z;
  (** the [data-theme] attribute of the document element is ["dark"] *)
  dark : bool;
  (** the [k]-th evaluation of [new Date()] *)
  clock : nat -> Z;
  (** [d.setHours(hour, 0, 0, 0)] in the time zone of the page *)
  setHours : Z -> Z -> Z;
  (** [d.setDate(d.getDate() + 1)] in the time zone of the page *)
  nextDay : Z -> Z
}.

(** The dashboard object and what it has done to the page. *)
Record dashboard := mkDashboard {
  entryId : option string;
  inverterSn : option string;
  charts_battery : option batteryOptions;
  charts_solar : option plainOptions;
  charts_prices : option plainOptions;
  updateInterval : option Z;          (** period of the timer of [setInterval] *)
  innerHTML : list (string * string); (** the writes to [innerHTML], latest first *)
  destroyed : nat;                    (** calls of [chart.destroy()] *)
  reads : nat;                        (** evaluations of [new Date()] *)
  console : list consoleEntry
}.

(** [getUrlParam]: [URLSearchParams.get], the first value of the name in
    the query, [None] for [null]. *)
Fixpoint getUrlParam (search : list (string * string)) (name : string)
  : option string :=
  match search with
  | [] => None
  | (k, v) :: r => if String.eqb k name then Some v else getUrlParam r name
  end.

(** [new OigCloudDashboard()] on a page with the query [search]. *)
Definition constructor (search : list (string * string)) : dashboard :=
  mkDashboard (getUrlParam search "entry_id") (getUrlParam search "inverter_sn")
              None None None None [] 0 0 [].

(** [!param] for a value of [getUrlParam]. *)
Definition missing (param : option string) : bool :=
  match param with
  | None => true
  | Some s => String.eqb s ""
  end.

Definition text (param : option string) : string :=
  match param with
  | None => "null"
  | Some s => s
  end.

Definition log (e : consoleEntry) (d : dashboard) : dashboard :=
  mkDashboard (entryId d) (inverterSn d) (charts_battery d) (charts_solar d)
              (charts_prices d) (updateInterval d) (innerHTML d) (destroyed d)
              (reads d) (console d ++ [e]).

Definition setInnerHTML (id html : string) (d : dashboard) : dashboard :=
  mkDashboard (entryId d) (inverterSn d) (charts_battery d) (charts_solar d)
              (charts_prices d) (updateInterval d) ((id, html) :: innerHTML d)
              (destroyed d) (reads d) (console d).

Definition setInterval (period : Z) (d : dashboard) : dashboard :=
  mkDashboard (entryId d) (inverterSn d) (charts_battery d) (charts_solar d)
              (charts_prices d) (Some period) (innerHTML d) (destroyed d)
              (reads d) (console d).

Definition destroyIf {A : Type} (chart : option A) (n : nat) : nat :=
  match chart with
  | Some _ => S n
  | None => n
  end.

(** [if (this.charts.battery) destroy(); this.charts.battery = new ...] *)
Definition setBattery (o : batteryOptions) (d : dashboard) : dashboard :=
  mkDashboard (entryId d) (inverterSn d) (Some o) (charts_solar d)
              (charts_prices d) (updateInterval d) (innerHTML d)
              (destroyIf (charts_battery d) (destroyed d)) (reads d) (console d).

Definition setSolar (o : plainOptions) (n : nat) (d : dashboard) : dashboard :=
  mkDashboard (entryId d) (inverterSn d) (charts_battery d) (Some o)
              (charts_prices d) (updateInterval d) (innerHTML d)
              (destroyIf (charts_solar d) (destroyed d)) (reads d + n) (console d).

Definition setPrices (o : plainOptions) (d : dashboard) : dashboard :=
  mkDashboard (entryId d) (inverterSn d) (charts_battery d) (charts_solar d)
              (Some o) (updateInterval d) (innerHTML d)
              (destroyIf (charts_prices d) (destroyed d)) (reads d) (console d).

(** *** renderBatteryChart *)

Definition foreground (isDark : bool) : string :=
  if isDark then "#e1e1e1" else "#212121".

(** The array [spotPrices]: the points whose price is not [null]. *)
Definition spotPricesOf (parse : string -> Z) (timelineData : list timelinePoint)
  : list datum :=
  flat_map (fun point =>
              match spot_price_czk point with
              | Some price => [(parse (timestamp point), price)]
              | None => []
              end) timelineData.

(** The array [chargingPeriods]. *)
Definition chargingPeriodsOf (parse : string -> Z)
  (timelineData : list timelinePoint) : list datum :=
  flat_map (fun point =>
              if is_charging point
              then [(parse (timestamp point), battery_capacity_kwh point)]
              else []) timelineData.

(** The element of [annotations.points] of one spot price. *)
Definition priceAnnotation (sp : datum) : pointAnnotation :=
  let (timestamp, price) := sp in
  mkPointAnnotation timestamp (price * 2)%Q 0 (toFixed 1 price) "#FF0000".

(** The object [options]. *)
Definition batteryChartOptions (parse : string -> Z) (isDark : bool)
  (a : attributes) (timelineData : list timelinePoint) : batteryOptions :=
  let solarData :=
    map (fun p => (parse (timestamp p), solar_production_w p)) timelineData in
  let batteryData :=
    map (fun p => (parse (timestamp p), battery_capacity_kwh p)) timelineData in
  let spotPrices := spotPricesOf parse timelineData in
  let chargingPeriods := chargingPeriodsOf parse timelineData in
  mkBatteryOptions
    [ mkSeries "FVE Výroba" "line" 1 solarData "#00E396";
      mkSeries "Kapacita baterie" "area" 0 batteryData "#FF8C00";
      mkSeries "Nabíjení" "area" 0 chargingPeriods "#00E396" ]
    (if isDark then "#1e1e1e" else "#ffffff")
    (foreground isDark)
    (if isDark then "#444" else "#e0e0e0")
    (foreground isDark)
    [ mkAxis false "Kapacita (kWh)" (foreground isDark) (foreground isDark)
             0%Q (or_else (max_capacity_kwh a) (Num 15%Q));
      mkAxis true "Výroba (W)" (foreground isDark) (foreground isDark)
             0%Q (Num 3000%Q) ]
    (foreground isDark)
    (map priceAnnotation spotPrices)
    (or_else (current_battery_kwh a) (Num 0%Q)).

(** The placeholder written when there is no timeline. *)
Definition noData : string :=
  ("<div style=" ++ dquote ++ "text-align:center;padding:40px;" ++ dquote
   ++ ">Žádná data pro zobrazení</div>")%string.

Definition renderBatteryChart (h : host) (sd : option sensorData)
  (d : dashboard) : dashboard :=
  match sd with
  | None => d
  | Some sd =>
      match attrs sd with
      | None => d
      | Some a =>
          match timeline_data a with
          | None | Some [] => setInnerHTML "battery-chart" noData d
          | Some timelineData =>
              setBattery (batteryChartOptions (Date_parse h) (dark h) a timelineData) d
          end
      end
  end.

(** *** renderSolarChart and renderSpotPricesChart *)

Definition orEmpty (o : option bucket) : bucket :=
  match o with
  | Some b => b
  | None => []
  end.

(** [parseInt] of the part of [time] before the first colon. *)
Fixpoint hourOf (time : string) (acc : Z) : Z :=
  match time with
  | EmptyString => acc
  | String c r => if Ascii.eqb c ":" then acc else hourOf r (10 * acc + digit c)
  end.

(** The loop over one bucket of hours; [shift] moves the date read from the
    clock to the day of the bucket. *)
Fixpoint hourly (h : host) (shift : Z -> Z) (k : nat) (b : bucket) : list datum :=
  match b with
  | [] => []
  | (time, v) :: r =>
      (setHours h (shift (clock h k)) (hourOf time 0), v) :: hourly h shift (S k) r
  end.

Definition renderSolarChart (h : host) (sd : option sensorData) (d : dashboard)
  : dashboard :=
  match sd with
  | None => d
  | Some sd =>
      match attrs sd with
      | None => d
      | Some a =>
          let todayData := orEmpty (today_hourly_total_kw a) in
          let tomorrowData := orEmpty (tomorrow_hourly_total_kw a) in
          let today := hourly h (fun t => t) (reads d) todayData in
          let tomorrow :=
            hourly h (nextDay h) (reads d + List.length todayData) tomorrowData in
          setSolar (mkPlainOptions "area" [("Dnes", today); ("Zítra", tomorrow)])
                   (List.length todayData + List.length tomorrowData) d
      end
  end.

Definition renderSpotPricesChart (h : host) (sd : option sensorData)
  (d : dashboard) : dashboard :=
  match sd with
  | None => d
  | Some sd =>
      match attrs sd with
      | None => d
      | Some a =>
          let chartData :=
            map (fun kv => (Date_parse h (fst kv), snd kv))
                (orEmpty (prices_czk_kwh a)) in
          setPrices (mkPlainOptions "column" [("Cena (CZK/kWh)", chartData)]) d
      end
  end.

(** *** loadAndRenderCharts and init

    The charting library is taken to be loaded, so that the three renders
    do not throw and the [catch] blocks are not entered. *)

Definition sensor (inverterSn : option string) (suffix : string) : string :=
  ("sensor.oig_" ++ text inverterSn ++ "_" ++ suffix)%string.

(** [getSensorData]: the state object, or [null] after a [console.error]
    when the read threw. *)
Definition getSensorData (h : host) (entityId : string) (d : dashboard)
  : option sensorData * dashboard :=
  match getDirectSensorData h entityId with
  | Returned sd => (sd, d)
  | Threw error =>
      (None,
       log (console_error [("Error fetching " ++ entityId ++ ":")%string;
                           message error]) d)
  end.

Definition loadAndRenderCharts (h : host) (d : dashboard) : dashboard :=
  let (batteryForecastData, d) :=
    getSensorData h (sensor (inverterSn d) "battery_forecast") d in
  let (solarForecastData, d) :=
    getSensorData h (sensor (inverterSn d) "solar_forecast") d in
  let d := renderBatteryChart h batteryForecastData d in
  let d := renderSolarChart h solarForecastData d in
  let (spotPricesData, d) :=
    getSensorData h (sensor (inverterSn d) "spot_prices_current") d in
  renderSpotPricesChart h spotPricesData d.

Definition missingParameters : Error :=
  mkError "Missing entry_id or inverter_sn parameters".

(** The three [console.log] calls that open [init]. *)
Definition announce (d : dashboard) : dashboard :=
  log (console_log ["Inverter SN:"; text (inverterSn d)])
    (log (console_log ["Entry ID:"; text (entryId d)])
       (log (console_log ["Initializing OIG Cloud Dashboard..."]) d)).

Definition init (h : host) (d : dashboard) : settled * dashboard :=
  let d := announce d in
  if missing (entryId d) || missing (inverterSn d)
  then (Rejected missingParameters, d)
  else (Resolved, setInterval 120000 (loadAndRenderCharts h d)).

End Dashboard.

(* ===================================================================== *)
(** ** Vocabulary of the statements, and the inputs of the examples *)
(* ===================================================================== *)

Module MergeSpec.
Import ForecastCard.

(** The points of a series at the instant [t]. *)
Definition at_instant (t : Z) (p : point) : bool := x p =? t.

(** [p] is not later than [q]. *)
Definition ascending (p q : point) : Prop := x p <= x q.

(** In [merged], a point of [actual] stands before any point of [predicted]
    of the same instant. *)
Definition actual_first (actual predicted merged : list point) : Prop :=
  forall a p, In a actual -> In p predicted -> x a = x p ->
              exists l1 l2 l3, merged = l1 ++ a :: l2 ++ p :: l3.

(** The reading of [new Date()] in the examples: 2024-05-02T08:00:00Z. *)
Definition morning (k : nat) : Z := 1714636800000.

(** A snapshot computed the day before: its bucket of tomorrow's prediction
    starts at the midnight that has passed since. *)
Definition staleTomorrow : bucket := [("2024-05-02T00:00:00Z", 5%Q)].

Definition staleBattery : attrs :=
  mkAttrs None None None (Some staleTomorrow) None None None None None None None None.

Definition staleSolar : attrs :=
  mkAttrs None None None None None None None (Some staleTomorrow) None None None None.

(** An actual reading and a prediction for the same hour, with a later
    prediction. *)
Definition sameHour : attrs :=
  mkAttrs None (Some [("2024-05-02T09:00:00Z", 5%Q)])
          (Some [("2024-05-02T09:00:00Z", (11 # 2)%Q); ("2024-05-02T10:00:00Z", 6%Q)])
          None None None None None None None None None.

End MergeSpec.

Module LoaderSpec.
Import JS Browser.

(** The failure reasons a console reports, oldest first: the last argument
    of each warning of the loop. *)
Definition reasonsWarned (w : window) : list string :=
  map (fun args => nth 1 args "") (warnings (console w)).

(** The reading of the specification: the error [load] fails with carries
    the failure reason of every source, that is, they can be read off it. *)
Definition failure_carries_reasons : Prop :=
  exists reasonsOf : Error -> list string,
    forall env e w',
      ChartLoader.load env ChartLoader.OIG_CHART_CONFIG blank = (Rejected e, w') ->
      reasonsOf e = reasonsWarned w'.

(** Every fetch times out; every fetch ends in [onerror]. *)
Definition allTimeout (src : string) : scriptEvent := Timeout.
Definition allOnerror (src : string) : scriptEvent := Onerror.

(** [r] is the reason [loadScript] rejects the source [s] with on the page
    [w].  A call of [load] makes its attempts one after the other on the
    page the call finds: an attempt that fails leaves the library and the
    script elements as they were, so this is the error the [catch] of the
    loop receives for [s]. *)
Definition rejects (env : string -> scriptEvent) (w : window) (s : string)
  (r : Error) : Prop :=
  fst (ChartLoader.loadScript env s w) = Rejected r.

Definition rejectsLocal (env : string -> scriptEvent) (w : window) (s : string)
  (r : Error) : Prop :=
  fst (ChartConfig.loadScript env s w) = Rejected r.

(** The console warning of the loop for a source whose fetch timed out. *)
Definition timeoutWarning (s : string) : list string :=
  [("❌ Nepodařilo se načíst z " ++ s ++ ":")%string;
   ("Timeout při načítání " ++ s)%string].

(** *** Two calls of [load] on a blank page

    [A] is called and suspends on the fetch of the first source; [B] is
    called while that fetch is in flight; the first source then loads, the
    fetches [B] started fail. *)
Definition cfg : ChartLoader.config := ChartLoader.OIG_CHART_CONFIG.

Definition callA : ChartLoader.task * window := ChartLoader.start cfg blank.

Definition callB : ChartLoader.task * window := ChartLoader.start cfg (snd callA).




(** The same two calls when the fetch [B] started fails first and the first
    source fails next: [A] moves on to the source [B] has given up. *)
Definition laterB : ChartLoader.task * window :=
  ChartLoader.resume cfg (fst callB) Onerror (snd callB).

Definition laterA : ChartLoader.task * window :=
  ChartLoader.resume cfg (fst callA) Onerror (snd laterB).

End LoaderSpec.

Module DashboardSpec.
Import JS Dashboard.

(** The calendar of a page in UTC. *)
Definition setHoursUtc (t hour : Z) : Z := t - t mod 86400000 + hour * 3600000.
Definition nextDayUtc (t : Z) : Z := t + 86400000.

(** A host that knows no entity. *)
Definition noSensors : host :=
  mkHost (fun _ => Returned None) Date_parse_utc false (fun _ => 1714636800000)
         setHoursUtc nextDayUtc.

(** A timeline of two points: one with a spot price, one with [null]. *)
Definition timeline : list timelinePoint :=
  [ mkTimelinePoint "2024-05-02T08:00:00Z" 1200%Q (15 # 2)%Q (Some (245 # 100)%Q) false;
    mkTimelinePoint "2024-05-02T09:00:00Z" 1500%Q 8%Q None true ].

(** The state of the battery forecast entity, with the given
    [max_capacity_kwh]. *)
Definition forecast (maxCapacity : value) : sensorData :=
  mkSensorData
    (Some (mkAttributes (Some timeline) maxCapacity (Num (15 # 2)%Q) None None None)).

(** The page opened with [?entry_id=&inverter_sn=2206237016]. *)
Definition emptyEntryId : dashboard :=
  constructor [("entry_id", ""); ("inverter_sn", "2206237016")].

(** The page opened with [?inverter_sn=2206237016]. *)
Definition noEntryId : dashboard := constructor [("inverter_sn", "2206237016")].

(** The page opened with both parameters. *)
Definition bothGiven : dashboard :=
  constructor [("entry_id", "abc123"); ("inverter_sn", "2206237016")].

(** The left axis of a battery chart. *)
Definition leftAxis (o : batteryOptions) : option axis := nth_error (yaxis o) 0.

(** What one spot price [[timestamp, price]] asks of its annotation. *)
Definition annotates (sp : datum) (an : pointAnnotation) : Prop :=
  x an = fst sp
  /\ y an = (snd sp * 2)%Q
  /\ label_text an = toFixed 1 (snd sp).

End DashboardSpec.

(* ===================================================================== *)
(** ** OigBatteryForecastCard: the series handed to the chart *)
(* ===================================================================== *)

Module ForecastCardSeries.
Import JS ForecastCard.

(** [o[k]], [None] when the object has no such key. *)
Fixpoint lookup (k : string) (o : bucket) : option Q :=
  match o with
  | [] => None
  | (k', v) :: r => if String.eqb k' k then Some v else lookup k r
  end.

(** [attrs.battery_config] *)
Record batteryConfig := mkBatteryConfig {
  max_capacity_kwh : value;
  min_capacity_percent : value;
  charge_rate_kw : value
}.

(** The attributes read beside the buckets; [None] is an attribute that is
    absent. *)
Record chargingAttrs := mkChargingAttrs {
  charging_hours_today : option (list string);
  charging_hours_tomorrow : option (list string);
  battery_config : option batteryConfig;
  last_update : option string
}.

(** An element of the array given to [chart.updateSeries]. *)
Record series := mkSeries {
  name : string;
  data : list point;
  type : option string;
  yAxisIndex : nat
}.

(** [attrs.name || []] *)
Definition orNone (o : option (list string)) : list string :=
  match o with
  | Some l => l
  | None => []
  end.

(** [attrs.battery_config?.max_capacity_kwh || 10] *)
Definition maxCapacityOf (c : chargingAttrs) : value :=
  or_else (match battery_config c with
           | Some b => max_capacity_kwh b
           | None => Undefined
           end) (Num 10%Q).

(** [if (data.length > 0) series.push(s)] *)
Definition pushIfData (s : series) (acc : list series) : list series :=
  match data s with
  | [] => acc
  | _ :: _ => acc ++ [s]
  end.

Section Prepare.

Variable Date_parse : string -> Z.
Variable clock : nat -> Z.

(** [v * 0.9], a product of floating point numbers. *)
Variable times09 : value -> Q.

Definition prepareChargingData (c : chargingAttrs) : list point :=
  let chargingToday := orNone (charging_hours_today c) in
  let chargingTomorrow := orNone (charging_hours_tomorrow c) in
  let maxCapacity := maxCapacityOf c in
  JS.sort byX
    (map (fun timestamp => mkPoint (Date_parse timestamp) (times09 maxCapacity))
         (chargingToday ++ chargingTomorrow)).

(** [prepareSeries]; [k] counts the readings of the clock made before the
    call.  The method reads the clock once itself, and each merge once per
    entry it tests. *)
Definition prepareSeries (k : nat) (a : attrs) (c : chargingAttrs) : list series :=
  let k1 := S k in
  let batteryData := combineBatteryData Date_parse clock k1 a in
  let k2 := (k1 + List.length (orEmpty (battery_today_predicted a)))%nat in
  let solarData := combineSolarData Date_parse clock k2 a in
  let k3 :=
    (k2 + List.length (spread (orEmpty (solar_today_predicted a))
                              (orEmpty (solar_tomorrow_predicted a))))%nat in
  let consumptionData := combineConsumptionData Date_parse clock k3 a in
  let chargingData := prepareChargingData c in
  pushIfData (mkSeries "Nabíjení ze sítě" chargingData (Some "scatter") 0)
    (pushIfData (mkSeries "Spotřeba domu" consumptionData None 1)
       (pushIfData (mkSeries "Solární výroba" solarData None 1)
          (pushIfData (mkSeries "Kapacita baterie" batteryData None 0) []))).

End Prepare.

(** *** Inputs of the examples *)

(** The clock of the examples, with [new Date()] at 2024-05-02T08:00:00Z
    throughout. *)
Definition eight (k : nat) : Z := 1714636800000.

(** Yesterday's and today's readings share the key of midnight. *)
Definition solarOverlap : attrs :=
  mkAttrs None None None None
          (Some [("2024-05-01T23:00:00Z", 1%Q); ("2024-05-02T00:00:00Z", 2%Q)])
          (Some [("2024-05-02T00:00:00Z", 3%Q); ("2024-05-02T01:00:00Z", 4%Q)])
          (Some [("2024-05-02T07:00:00Z", 5%Q); ("2024-05-02T09:00:00Z", 6%Q)])
          (Some [("2024-05-03T00:00:00Z", 7%Q)])
          None
          (Some [("2024-05-02T07:00:00Z", (-350)%Q)])
          (Some [("2024-05-02T09:00:00Z", (-400)%Q)])
          None.

(** Readings and predictions of the battery around 08:00. *)
Definition batteryDay : attrs :=
  mkAttrs (Some [("2024-05-01T08:00:00Z", 4%Q)])
          (Some [("2024-05-02T07:00:00Z", 5%Q)])
          (Some [("2024-05-02T07:00:00Z", 6%Q); ("2024-05-02T09:00:00Z", 7%Q)])
          (Some [("2024-05-03T00:00:00Z", 8%Q)])
          None None None None None None None None.

Definition noCharging : chargingAttrs := mkChargingAttrs None None None None.

Definition someCharging : chargingAttrs :=
  mkChargingAttrs (Some ["2024-05-02T13:00:00Z"; "2024-05-02T12:00:00Z"])
                  (Some ["2024-05-03T02:00:00Z"])
                  (Some (mkBatteryConfig (Num 0%Q) Undefined Undefined))
                  (Some "2024-05-02T07:55:00Z").

(** Nine tenths of a number, on the rationals. *)
Definition ninetenths (v : value) : Q :=
  match v with
  | Num q => (q * (9 # 10))%Q
  | _ => 0%Q
  end.

End ForecastCardSeries.

Module LoaderMoreSpec.
Import JS Browser.


(** The sources [load] of the strategy loader attempts when all of them
    fail. *)
Definition attemptedByStrategy (cfg : ChartConfig.config) : list string :=
  if String.eqb (ChartConfig.loadStrategy cfg) "local" then [ChartConfig.localPath cfg]
  else if String.eqb (ChartConfig.loadStrategy cfg) "cdn" then ChartConfig.cdnSources cfg
  else ChartConfig.localPath cfg :: ChartConfig.cdnSources cfg.


(** The first CDN times out, the second loads and defines the library. *)
Definition secondLoads (src : string) : scriptEvent :=
  if String.eqb src "https://unpkg.com/apexcharts@3.44.0/dist/apexcharts.min.js"
  then Onload true else Timeout.

(** The local copy loads and defines the library; nothing else does. *)
Definition localLoads (src : string) : scriptEvent :=
  if String.eqb src "/oig_cloud_static/apex-charts.min.js"
  then Onload true else Onerror.

End LoaderMoreSpec.

Module DashboardMoreSpec.
Import JS Dashboard DashboardSpec.

(** The option holds a value. *)
Definition isSome {A : Type} (o : option A) : bool :=
  match o with
  | Some _ => true
  | None => false
  end.


(** The state object has attributes. *)
Definition hasAttributes (sd : option sensorData) : bool :=
  match sd with
  | Some s => isSome (attrs s)
  | None => false
  end.

(** The state object has attributes with a timeline that is not empty. *)
Definition hasTimeline (sd : option sensorData) : bool :=
  match sd with
  | Some s =>
      match attrs s with
      | Some a =>
          match timeline_data a with
          | Some (_ :: _) => true
          | _ => false
          end
      | None => false
      end
  | None => false
  end.





(** The point has a spot price. *)
Definition priced (p : timelinePoint) : bool :=
  isSome (spot_price_czk p).

(** A host that knows the battery forecast of the inverter 2206237016; the
    other reads throw. *)
Definition batteryOnly : host :=
  mkHost (fun id => if String.eqb id "sensor.oig_2206237016_battery_forecast"
                    then Returned (Some (forecast (Num 12%Q)))
                    else Threw (mkError "Unable to fetch sensor data"))
         Date_parse_utc false (fun _ => 1714636800000) setHoursUtc nextDayUtc.

End DashboardMoreSpec.

(* ===================================================================== *)
(** ** OigBatteryForecastCard: the life of the card *)
(* ===================================================================== *)

Module Card.
Import JS Browser ForecastCard ForecastCardSeries.

(** A state of [hass.states]: its attributes. *)
Record entity := mkEntity {
  buckets : attrs;
  others : chargingAttrs
}.

(** The object returned by [prepareStats]. *)
Record stats := mkStats {
  maxCapacity : string;
  minCapacity : string;
  chargeRate : string;
  chargingHoursToday : nat;
  chargingHoursTomorrow : nat;
  lastUpdate : string
}.

(** An instance of the charting library: the instant of its marker of the
    present and the series it displays. *)
Record chartInstance := mkChartInstance {
  marker : Z;
  shown : list series
}.

(** The markup the card writes to [innerHTML] of the element [#chart]:
    nothing ([render]), the spinner ([showLoading]) or the error panel
    ([showError]), each with its message. *)
Inductive markup :=
| Empty
| Spinner (message : string)
| ErrorPanel (message : string).

(** The element [#chart] of the shadow root: the markup the card wrote to
    it last, and whether a chart has been rendered into it since
    ([new ApexCharts(element, options)] and [render()]).  A write to
    [innerHTML] replaces all the element holds; rendering a chart writes
    no markup of the card. *)
Record box := mkBox {
  written : markup;
  rendered : bool
}.

(** The card: [this.config.entity], [this._hass.states], [this.chart], the
    elements [#chart] and [#stats] of the shadow root ([None] before
    [render]), and the number of chart instances created. *)
Record card := mkCard {
  config : option string;
  hass : option (string -> option entity);
  chart : option chartInstance;
  chartBox : option box;
  statsBox : option (option stats);
  instances : nat
}.

(** The page of the card: the window of the loaders, whether
    [window.ApexChartsLoader] is defined, and the evaluations of
    [new Date()] so far. *)
Record page := mkPage {
  window_ : window;
  ApexChartsLoader : bool;
  reads : nat
}.

(** How the fetch of the loader script ends: [onload] (and whether the
    script defines [window.ApexChartsLoader]), [onerror], or neither. *)
Inductive fetched :=
| ScriptLoaded (definesLoader : bool)
| ScriptError
| ScriptPending.

(** What the pages around the card provide. *)
Record environment := mkEnvironment {
  loaderScript : fetched;
  cdn : string -> scriptEvent;
  chartConfig : ChartLoader.config;
  Date_parse : string -> Z;
  clock : nat -> Z;
  (** [v * 0.9] in floating point *)
  times09 : value -> Q;
  (** a value interpolated into a template *)
  show : value -> string;
  (** [new Date(s).toLocaleString('cs-CZ')] *)
  toLocaleString : string -> string
}.

(** A method returns, or throws. *)
Inductive completion :=
| Returns
| Throws (e : Error).

(** An asynchronous method is done, or stays suspended on a promise that
    never settles. *)
Inductive progress :=
| Done
| Suspended.

Definition new_card : card := mkCard None None None None None 0.

(** [setConfig] *)
Definition setConfig (entityOfConfig : option string) (c : card)
  : completion * card :=
  match entityOfConfig with
  | None => (Throws (mkError "You need to define an entity"), c)
  | Some e =>
      if String.eqb e "" then (Throws (mkError "You need to define an entity"), c)
      else (Returns, mkCard (Some e) (hass c) (chart c) (chartBox c) (statsBox c)
                            (instances c))
  end.

(** The number 2.8 of the source, as the rational its double denotes. *)
Definition defaultChargeRate : Q := (3152519739159347 # 1125899906842624)%Q.

(** [prepareStats] *)
Definition prepareStats (env : environment) (o : chargingAttrs) : stats :=
  let field (get : batteryConfig -> value) :=
    match battery_config o with
    | Some b => get b
    | None => Undefined
    end in
  mkStats
    (show env (or_else (field max_capacity_kwh) (Num 0%Q)) ++ " kWh")%string
    (show env (or_else (field min_capacity_percent) (Num 20%Q)) ++ "%")%string
    (show env (or_else (field charge_rate_kw) (Num defaultChargeRate)) ++ " kW")%string
    (List.length (orNone (charging_hours_today o)))
    (List.length (orNone (charging_hours_tomorrow o)))
    (match last_update o with
     | Some s => if String.eqb s "" then "N/A" else toLocaleString env s
     | None => "N/A"
     end).

(** The evaluations of [new Date()] in one call of [prepareSeries]. *)
Definition readsOfPrepareSeries (a : attrs) : nat :=
  (1 + List.length (orEmpty (battery_today_predicted a))
   + List.length (spread (orEmpty (solar_today_predicted a))
                         (orEmpty (solar_tomorrow_predicted a)))
   + List.length (spread (orEmpty (consumption_today_predicted a))
                         (orEmpty (consumption_tomorrow_predicted a))))%nat.

Definition undefinedEntity : Error :=
  mkError "Cannot read properties of undefined (reading 'entity')".

Definition undefinedLoad : Error :=
  mkError "Cannot read properties of undefined (reading 'load')".

(** [updateChart] *)
Definition updateChart (env : environment) (c : card) (p : page)
  : completion * card * page :=
  match chart c, hass c with
  | Some ch, Some states =>
      match config c with
      | None => (Throws undefinedEntity, c, p)
      | Some entityId =>
          match states entityId with
          | None => (Returns, c, p)
          | Some e =>
              let series :=
                prepareSeries (Date_parse env) (clock env) (times09 env) (reads p)
                              (buckets e) (others e) in
              let st := prepareStats env (others e) in
              (Returns,
               mkCard (config c) (hass c) (Some (mkChartInstance (marker ch) series))
                      (chartBox c)
                      (match statsBox c with
                       | Some _ => Some (Some st)
                       | None => None
                       end)
                      (instances c),
               mkPage (window_ p) (ApexChartsLoader p)
                      (reads p + readsOfPrepareSeries (buckets e)))
          end
      end
  | _, _ => (Returns, c, p)
  end.

(** [set hass(hass)] *)
Definition set_hass (env : environment) (states : string -> option entity)
  (c : card) (p : page) : completion * card * page :=
  updateChart env
    (mkCard (config c) (Some states) (chart c) (chartBox c) (statsBox c) (instances c))
    p.

(** [render]: the shadow root gets its elements anew. *)
Definition render (c : card) : card :=
  mkCard (config c) (hass c) (chart c) (Some (mkBox Empty false)) (Some None)
         (instances c).

(** [chartContainer.innerHTML = ...], if the element exists. *)
Definition setBox (m : markup) (c : card) : card :=
  mkCard (config c) (hass c) (chart c)
         (match chartBox c with
          | Some _ => Some (mkBox m false)
          | None => None
          end)
         (statsBox c) (instances c).

(** [showLoading] and [showError]: nothing without the element [#chart]. *)
Definition showLoading (message : string) (c : card) : card :=
  setBox (Spinner message) c.

Definition showError (message : string) (c : card) : card :=
  setBox (ErrorPanel message) c.

(** [initChart]: the chart is rendered into the element [#chart], whose
    markup the method does not touch. *)
Definition initChart (env : environment) (c : card) (p : page)
  : completion * card * page :=
  match ApexCharts (window_ p), chartBox c with
  | true, Some b =>
      let instance := mkChartInstance (clock env (reads p)) [] in
      updateChart env
        (mkCard (config c) (hass c) (Some instance) (Some (mkBox (written b) true))
                (statsBox c) (S (instances c)))
        (mkPage (window_ p) (ApexChartsLoader p) (S (reads p)))
  | _, _ => (Returns, c, p)
  end.

(** [loadScript] of the card: resolved at once when a script element with
    the source exists; [None] when the promise never settles. *)
Definition loadScript (env : environment) (src : string) (p : page)
  : option settled * page :=
  if hasScript src (window_ p) then (Some Resolved, p)
  else
    let w := appendScript src (window_ p) in
    match loaderScript env with
    | ScriptLoaded definesLoader =>
        (Some Resolved, mkPage w (ApexChartsLoader p || definesLoader) (reads p))
    | ScriptError =>
        (Some (Rejected (mkError ("Failed to load " ++ src)%string)),
         mkPage w (ApexChartsLoader p) (reads p))
    | ScriptPending => (None, mkPage w (ApexChartsLoader p) (reads p))
    end.

Definition loaderPath : string := "/oig_cloud_static/chart-loader.js".

Definition unavailable : string := "Graf není dostupný - problém s načítáním z CDN".

(** The [catch] block of [loadChartsLibrary]. *)
Definition caught (error : Error) (c : card) (p : page) : card * page :=
  (showError unavailable c,
   mkPage (log (console_error ["Chyba při načítání Apex Charts:"; message error])
               (window_ p))
          (ApexChartsLoader p) (reads p)).

(** [loadChartsLibrary], from the call of [showLoading] on. *)
Definition loadAndInit (env : environment) (c : card) (p : page) : card * page :=
  let c := showLoading "Načítání grafu..." c in
  if ApexChartsLoader p then
    match ChartLoader.load (cdn env) (chartConfig env) (window_ p) with
    | (Resolved, w) =>
        match initChart env c (mkPage w (ApexChartsLoader p) (reads p)) with
        | (Returns, c, p) => (c, p)
        | (Throws error, c, p) => caught error c p
        end
    | (Rejected error, w) => caught error c (mkPage w (ApexChartsLoader p) (reads p))
    end
  else caught undefinedLoad c p.

Definition done (cp : card * page) : progress * card * page :=
  (Done, fst cp, snd cp).

(** [loadChartsLibrary] *)
Definition loadChartsLibrary (env : environment) (c : card) (p : page)
  : progress * card * page :=
  if ApexChartsLoader p then done (loadAndInit env c p)
  else
    match loadScript env loaderPath p with
    | (None, p) => (Suspended, c, p)
    | (Some Resolved, p) => done (loadAndInit env c p)
    | (Some (Rejected error), p) => done (caught error c p)
    end.

(** [connectedCallback] *)
Definition connectedCallback (env : environment) (c : card) (p : page)
  : progress * card * page :=
  loadChartsLibrary env (render c) p.

End Card.

Module CardSpec.
Import JS Browser ForecastCard ForecastCardSeries Card.

(** The environment of the examples: the loader script loads, the second
    CDN delivers the library, the clock stands at 2024-05-02T08:00:00Z. *)
Definition working : environment :=
  mkEnvironment (ScriptLoaded true) LoaderMoreSpec.secondLoads
                ChartLoader.OIG_CHART_CONFIG Date_parse_utc eight ninetenths
                (fun _ => "?") (fun s => s).

(** The same with every CDN timing out. *)
Definition offline : environment :=
  mkEnvironment (ScriptLoaded true) LoaderSpec.allTimeout
                ChartLoader.OIG_CHART_CONFIG Date_parse_utc eight ninetenths
                (fun _ => "?") (fun s => s).

(** A page on which nothing is loaded. *)
Definition emptyPage : page := mkPage blank false 0.

(** A page on which the loader script has run. *)
Definition loaderPage : page := mkPage blank true 0.

(** A card configured for the entity [sensor.battery]. *)
Definition configured : card :=
  mkCard (Some "sensor.battery") None None None None 0.

(** The states of a host that knows [sensor.battery]. *)
Definition states (entityId : string) : option entity :=
  if String.eqb entityId "sensor.battery"
  then Some (mkEntity batteryDay someCharging) else None.

(** First the states, then the connection. *)
Definition hassThenConnect (env : environment) (s : string -> option entity)
  (c : card) (p : page) : card * page :=
  let '(_, c1, p1) := set_hass env s c p in
  let '(_, c2, p2) := connectedCallback env c1 p1 in
  (c2, p2).

(** First the connection, then the states. *)
Definition connectThenHass (env : environment) (s : string -> option entity)
  (c : card) (p : page) : card * page :=
  let '(_, c1, p1) := connectedCallback env c p in
  let '(_, c2, p2) := set_hass env s c1 p1 in
  (c2, p2).

End CardSpec.

(* ===================================================================== *)
(** ** Reading the states of Home Assistant *)
(* ===================================================================== *)

Module HomeAssistant.
Import JS.

(** A state object of the host. *)
Record stateObject := mkStateObject {
  entity_id : string;
  state : Dashboard.sensorData
}.

(** How an awaited promise ends. *)
Inductive awaited (A : Type) :=
| Fulfils (a : A)
| RejectsWith (e : Error).
Arguments Fulfils {A} a.
Arguments RejectsWith {A} e.

(** [window.hassConnection]: its method [sendMessagePromise], if it has
    one, given the field [entity_id] of the message [get_states]. *)
Record connection := mkConnection {
  sendMessagePromise : option (option string -> awaited (list stateObject))
}.

(** [JSON.parse(s).access_token] *)
Inductive tokenRead :=
| ParseThrows (e : Error)
| AccessToken (v : value).

(** The response of [fetch]. *)
Record response := mkResponse {
  ok : bool;
  json : awaited stateObject
}.

(** A request made with [fetch]: the address and the [Authorization]
    header. *)
Record request := mkRequest {
  url : string;
  authorization : string
}.

(** What the browser provides. *)
Record browser := mkBrowser {
  hassConnection : option connection;
  (** [localStorage.getItem('hassTokens')] *)
  localTokens : option string;
  (** [sessionStorage.getItem('hassTokens')] *)
  sessionTokens : option string;
  access_token_of : string -> tokenRead;
  (** a value interpolated into a template *)
  show : value -> string;
  fetch : request -> awaited response
}.

(** An item of a storage is truthy. *)
Definition present (item : option string) : bool :=
  match item with
  | Some s => negb (String.eqb s "")
  | None => false
  end.

Definition itemText (item : option string) : string :=
  match item with
  | Some s => s
  | None => ""
  end.

(** [`/api/states/${entityId}`] *)
Definition stateUrl (entityId : string) : string := ("/api/states/" ++ entityId)%string.

(** [`Bearer ${token}`] *)
Definition bearer (b : browser) (token : value) : string :=
  ("Bearer " ++ show b token)%string.

Definition noSuchMethod : Error :=
  mkError "window.hassConnection.sendMessagePromise is not a function".

End HomeAssistant.

(** *** The dashboard: getHAToken, getDirectSensorData, getSensorData *)

Module DashboardData.
Import JS HomeAssistant.

(** [getHAToken] *)
Definition getHAToken (b : browser) : value :=
  if present (localTokens b) then
    match access_token_of b (itemText (localTokens b)) with
    | AccessToken v => v
    | ParseThrows _ => Null
    end
  else if present (sessionTokens b) then
    match access_token_of b (itemText (sessionTokens b)) with
    | AccessToken v => v
    | ParseThrows _ => Null
    end
  else Null.

Definition unableToFetch : Error := mkError "Unable to fetch sensor data".

(** [states.find(state => state.entity_id === entityId)] *)
Definition findState (entityId : string) (states : list stateObject)
  : option stateObject :=
  find (fun s => String.eqb (entity_id s) entityId) states.

(** [getDirectSensorData]: how its promise ends, and the requests made
    with [fetch]. *)
Definition getDirectSensorData (b : browser) (entityId : string)
  : awaited (option stateObject) * list request :=
  match hassConnection b with
  | Some conn =>
      match sendMessagePromise conn with
      | Some send =>
          match send None with
          | Fulfils states => (Fulfils (findState entityId states), [])
          | RejectsWith e => (RejectsWith e, [])
          end
      | None => (RejectsWith noSuchMethod, [])
      end
  | None =>
      let token := getHAToken b in
      if truthy token then
        let req := mkRequest (stateUrl entityId) (bearer b token) in
        match fetch b req with
        | Fulfils r =>
            if ok r then
              match json r with
              | Fulfils s => (Fulfils (Some s), [req])
              | RejectsWith e => (RejectsWith e, [req])
              end
            else (RejectsWith unableToFetch, [req])
        | RejectsWith e => (RejectsWith e, [req])
        end
      else (RejectsWith unableToFetch, [])
  end.

(** [getSensorData]: the state or [null], the requests made, and the
    console output. *)
Definition getSensorData (b : browser) (entityId : string)
  : option stateObject * list request * list consoleEntry :=
  match getDirectSensorData b entityId with
  | (Fulfils s, reqs) => (s, reqs, [])
  | (RejectsWith e, reqs) =>
      (None, reqs,
       [console_error [("Error fetching " ++ entityId ++ ":")%string; message e]])
  end.

(** [await this.getDirectSensorData(entityId)] as [getSensorData] of the
    dashboard sees it: the state object found, or the error thrown. *)
Definition directReadOf (b : browser) (entityId : string)
  : Dashboard.directRead :=
  match fst (getDirectSensorData b entityId) with
  | Fulfils s => Dashboard.Returned (option_map state s)
  | RejectsWith e => Dashboard.Threw e
  end.

End DashboardData.

(* ===================================================================== *)
(** ** HABridge (ha-bridge.js) *)
(* ===================================================================== *)

Module HABridge.
Import JS HomeAssistant.

(** [event.data], of which the handler reads two properties. *)
Record eventData := mkEventData {
  type : string;
  entityId : string
}.

(** A [message] event: its data ([None] when falsy), the origin and the
    window it comes from. *)
Record messageEvent := mkMessageEvent {
  data : option eventData;
  origin : string;
  source : string
}.

(** What [getEntityState] returns: the answer of the connection, or the
    state the REST interface gives. *)
Inductive entityState :=
| FromConnection (states : list stateObject)
| FromRest (s : stateObject).

(** A call [target.postMessage(reply, targetOrigin)]. *)
Record posted := mkPosted {
  target : string;
  targetOrigin : string;
  reply_type : string;
  reply_entityId : string;
  reply_data : option entityState;
  reply_error : option string
}.

Definition unableToAuthenticate : Error :=
  mkError "Unable to authenticate with Home Assistant".

(** [getEntityState] *)
Definition getEntityState (b : browser) (id : string)
  : awaited entityState * list request :=
  match match hassConnection b with
        | Some conn => sendMessagePromise conn
        | None => None
        end with
  | Some send =>
      match send (Some id) with
      | Fulfils states => (Fulfils (FromConnection states), [])
      | RejectsWith e => (RejectsWith e, [])
      end
  | None =>
      let token := if present (localTokens b) then localTokens b else sessionTokens b in
      if present token then
        match access_token_of b (itemText token) with
        | ParseThrows e => (RejectsWith e, [])
        | AccessToken v =>
            let req := mkRequest (stateUrl id) (bearer b v) in
            match fetch b req with
            | Fulfils r =>
                if ok r then
                  match json r with
                  | Fulfils s => (Fulfils (FromRest s), [req])
                  | RejectsWith e => (RejectsWith e, [req])
                  end
                else (RejectsWith unableToAuthenticate, [req])
            | RejectsWith e => (RejectsWith e, [req])
            end
        end
      else (RejectsWith unableToAuthenticate, [])
  end.

(** The listener of [setupMessageHandlers]: the messages posted, the
    requests made and the console output. *)
Definition onMessage (b : browser) (event : messageEvent)
  : list posted * list request * list consoleEntry :=
  match data event with
  | Some m =>
      if String.eqb (type m) "get_sensor_data" then
        match getEntityState b (entityId m) with
        | (Fulfils response, reqs) =>
            ([mkPosted (source event) (origin event) "sensor_data_response"
                       (entityId m) (Some response) None],
             reqs, [])
        | (RejectsWith error, reqs) =>
            ([mkPosted (source event) (origin event) "sensor_data_response"
                       (entityId m) None (Some (message error))],
             reqs,
             [console_error ["Error getting sensor data:"; message error]])
        end
      else ([], [], [])
  | None => ([], [], [])
  end.

End HABridge.

Module HomeAssistantSpec.
Import JS HomeAssistant.

(** A value as a template shows it. *)
Definition showValue (v : value) : string :=
  match v with
  | Undefined => "undefined"
  | Null => "null"
  | Bool true => "true"
  | Bool false => "false"
  | Num q => toFixed 0 q
  | Str s => s
  end.

(** The item of the examples: an object with the access token [abc]. *)
Definition tokenItem : string :=
  ("{" ++ dquote ++ "access_token" ++ dquote ++ ":" ++ dquote ++ "abc" ++ dquote
   ++ "}")%string.

(** [JSON.parse(s).access_token] on the item of the examples; any other
    string stands for one that is not JSON. *)
Definition readToken (s : string) : tokenRead :=
  if String.eqb s tokenItem then AccessToken (Str "abc")
  else ParseThrows (mkError "Unexpected token").

Definition batteryState : stateObject :=
  mkStateObject "sensor.oig_2206237016_battery_forecast"
                (DashboardSpec.forecast (Num 12%Q)).

(** The REST interface knows the battery forecast and accepts the token
    [abc]. *)
Definition rest (r : request) : awaited response :=
  if String.eqb (authorization r) "Bearer abc" then
    if String.eqb (url r) "/api/states/sensor.oig_2206237016_battery_forecast"
    then Fulfils (mkResponse true (Fulfils batteryState))
    else Fulfils (mkResponse false (RejectsWith (mkError "not found")))
  else Fulfils (mkResponse false (RejectsWith (mkError "unauthorized"))).

(** No connection; a malformed item in the local storage, a good one in the
    session storage. *)
Definition malformedLocal : browser :=
  mkBrowser None (Some "oops") (Some tokenItem) readToken showValue rest.

(** No connection; the token in the session storage only. *)
Definition sessionOnly : browser :=
  mkBrowser None None (Some tokenItem) readToken showValue rest.

(** A connection that knows the battery forecast. *)
Definition connected : browser :=
  mkBrowser (Some (mkConnection (Some (fun _ => Fulfils [batteryState]))))
            None (Some tokenItem) readToken showValue rest.

(** The host of a dashboard that reads its states through the browser
    [b]; the rest as in [noSensors]. *)
Definition hostOf (b : browser) : Dashboard.host :=
  Dashboard.mkHost (DashboardData.directReadOf b) Date_parse_utc false
                   (fun _ => 1714636800000) DashboardSpec.setHoursUtc
                   DashboardSpec.nextDayUtc.

(** The [console.error] of [getSensorData] for a read that ended in
    "Unable to fetch sensor data". *)
Definition unableToFetchLogged (inverterSn : option string) (suffix : string)
  : consoleEntry :=
  console_error [("Error fetching " ++ Dashboard.sensor inverterSn suffix ++ ":")%string;
                 "Unable to fetch sensor data"].

(** Neither connection nor token. *)
Definition anonymous : browser :=
  mkBrowser None None None readToken showValue rest.

(** A request of an embedded page. *)
Definition ask : HABridge.messageEvent :=
  HABridge.mkMessageEvent
    (Some (HABridge.mkEventData "get_sensor_data" "sensor.oig_2206237016_battery_forecast"))
    "http://homeassistant.local:8123" "iframe".

End HomeAssistantSpec.

(* ===================================================================== *)
(** ** Properties of the merged series *)
(* ===================================================================== *)

Module ForecastCardFacts.
Import ForecastCard MergeSpec.

Lemma byX_nonpos (p q : point) : (byX p q <=? 0) = true <-> x p <= x q.
Proof. unfold byX. rewrite Z.leb_le. lia. Qed.

Lemma insert_In (p q : point) (l : list point) :
  In q (JS.insert byX p l) <-> q = p \/ In q l.
Proof.
  induction l as [|b r IH]; simpl.
  - intuition congruence.
  - destruct (byX p b <=? 0); simpl; rewrite ?IH; intuition congruence.
Qed.

Lemma insert_sorted (p : point) (l : list point) :
  StronglySorted ascending l -> StronglySorted ascending (JS.insert byX p l).
Proof.
  induction 1 as [|b r Hr IH Hb]; simpl.
  - repeat constructor.
  - destruct (byX p b <=? 0) eqn:E.
    + apply byX_nonpos in E. constructor.
      * now constructor.
      * constructor; [exact E|].
        rewrite Forall_forall in Hb |- *. intros q Hq.
        specialize (Hb q Hq). unfold ascending in *. lia.
    + assert (x b < x p) as Hlt.
      { destruct (Z.le_gt_cases (x p) (x b)) as [H|H]; [|lia].
        apply byX_nonpos in H. congruence. }
      constructor; [exact IH|].
      rewrite Forall_forall in Hb |- *. intros q Hq.
      apply insert_In in Hq. destruct Hq as [->|Hq].
      * unfold ascending. lia.
      * now apply Hb.
Qed.

Lemma sort_sorted (l : list point) : StronglySorted ascending (JS.sort byX l).
Proof.
  induction l as [|p r IH]; simpl.
  - constructor.
  - now apply insert_sorted.
Qed.

Lemma insert_perm (p : point) (l : list point) :
  Permutation (JS.insert byX p l) (p :: l).
Proof.
  induction l as [|b r IH]; simpl.
  - reflexivity.
  - destruct (byX p b <=? 0).
    + reflexivity.
    + rewrite IH. apply perm_swap.
Qed.

Lemma sort_perm (l : list point) : Permutation (JS.sort byX l) l.
Proof.
  induction l as [|p r IH]; simpl.
  - reflexivity.
  - rewrite insert_perm. now constructor.
Qed.

Lemma sort_In (p : point) (l : list point) : In p (JS.sort byX l) <-> In p l.
Proof.
  split; apply Permutation_in; [|symmetry]; apply sort_perm.
Qed.

(** Inserting [p] leaves the points of any instant in their order, with [p]
    ahead of those of its own instant. *)
Lemma filter_insert (t : Z) (p : point) (l : list point) :
  filter (at_instant t) (JS.insert byX p l)
  = if at_instant t p then p :: filter (at_instant t) l
    else filter (at_instant t) l.
Proof.
  induction l as [|b r IH]; simpl.
  - reflexivity.
  - destruct (byX p b <=? 0) eqn:E; simpl.
    + reflexivity.
    + rewrite IH. unfold at_instant in *.
      destruct (x p =? t) eqn:Ep; [|reflexivity].
      apply Z.eqb_eq in Ep.
      assert ((x b =? t) = false) as ->; [|reflexivity].
      apply Z.eqb_neq. intros Hb.
      assert ((byX p b <=? 0) = true) by (apply byX_nonpos; lia).
      congruence.
Qed.

(** The sort is stable: the points of one instant keep their order. *)
Lemma filter_sort (t : Z) (l : list point) :
  filter (at_instant t) (JS.sort byX l) = filter (at_instant t) l.
Proof.
  induction l as [|p r IH]; simpl.
  - reflexivity.
  - rewrite filter_insert, IH. reflexivity.
Qed.

(** A list is cut where its filtered image is. *)
Lemma filter_cons_split {A : Type} (f : A -> bool) (l : list A) (a : A)
  (v : list A) :
  filter f l = a :: v ->
  exists l1 l2, l = l1 ++ a :: l2 /\ filter f l1 = [] /\ filter f l2 = v.
Proof.
  induction l as [|b r IH]; simpl; [discriminate|].
  destruct (f b) eqn:E.
  - intros H. injection H as -> <-. exists [], r. auto.
  - intros H. destruct (IH H) as (l1 & l2 & -> & H1 & H2).
    exists (b :: l1), l2. simpl. rewrite E. auto.
Qed.

Lemma filter_app_split {A : Type} (f : A -> bool) (u v l : list A) :
  filter f l = u ++ v ->
  exists l1 l2, l = l1 ++ l2 /\ filter f l1 = u /\ filter f l2 = v.
Proof.
  revert l. induction u as [|a u IH]; simpl; intros l H.
  - exists [], l. auto.
  - destruct (filter_cons_split _ _ _ _ H) as (l1 & l2 & -> & H1 & H2).
    destruct (IH _ H2) as (m1 & m2 & -> & Hm1 & Hm2).
    exists (l1 ++ a :: m1), m2. rewrite <- app_assoc. simpl. split; [reflexivity|].
    split; [|exact Hm2].
    rewrite filter_app, H1. simpl.
    assert (f a = true) as ->.
    { assert (In a (filter f (l1 ++ a :: m1 ++ m2))) as Hin
          by (rewrite H; now left).
      apply filter_In in Hin. tauto. }
    now rewrite Hm1.
Qed.

(** After the stable sort a point pushed from the actual buckets stands
    before a point of the same instant pushed from the predicted ones. *)
Lemma sort_actual_first (actual predicted : list point) :
  actual_first actual predicted (JS.sort byX (actual ++ predicted)).
Proof.
  intros a p Ha Hp Hx.
  pose proof (filter_sort (x a) (actual ++ predicted)) as H.
  rewrite filter_app in H.
  assert (In a (filter (at_instant (x a)) actual)) as Ha'.
  { apply filter_In. split; [exact Ha|]. unfold at_instant. apply Z.eqb_refl. }
  assert (In p (filter (at_instant (x a)) predicted)) as Hp'.
  { apply filter_In. split; [exact Hp|]. unfold at_instant. now apply Z.eqb_eq. }
  apply in_split in Ha'. destruct Ha' as (u1 & u2 & Hu).
  apply in_split in Hp'. destruct Hp' as (v1 & v2 & Hv).
  rewrite Hu, Hv, <- app_assoc in H. simpl in H.
  destruct (filter_app_split _ _ _ _ H) as (l1 & l2 & Hl & _ & H2).
  destruct (filter_cons_split _ _ _ _ H2) as (m1 & m2 & -> & _ & H3).
  rewrite app_assoc in H3.
  destruct (filter_app_split _ _ _ _ H3) as (n1 & n2 & -> & _ & H4).
  destruct (filter_cons_split _ _ _ _ H4) as (o1 & o2 & -> & _ & _).
  exists (l1 ++ m1), (n1 ++ o1), o2.
  rewrite Hl, <- !app_assoc. reflexivity.
Qed.

Section Merged.
Variable Date_parse : string -> Z.
Variable clock : nat -> Z.

(** A point that passes the test [time >= new Date()] is not earlier than
    the clock reading it was compared with. *)
Lemma pushFuture_In (f : Q -> Q) (b : bucket) (k : nat) (p : point) :
  In p (pushFuture Date_parse clock f k b) ->
  exists j timestamp value,
    In (timestamp, value) b /\ p = mkPoint (Date_parse timestamp) (f value)
    /\ (k <= j)%nat /\ clock j <= x p.
Proof.
  revert k. induction b as [|[ts v] r IH]; simpl; intros k H.
  - contradiction.
  - destruct (clock k <=? Date_parse ts) eqn:E.
    + destruct H as [<-|H].
      * exists k, ts, v. apply Z.leb_le in E. simpl. auto.
      * destruct (IH _ H) as (j & ts' & v' & ? & ? & ? & ?).
        exists j, ts', v'. repeat split; auto. lia.
    + destruct (IH _ H) as (j & ts' & v' & ? & ? & ? & ?).
      exists j, ts', v'. repeat split; auto. lia.
Qed.

Hypothesis clock_monotone : forall i j, (i <= j)%nat -> clock i <= clock j.

Lemma pushFuture_future (f : Q -> Q) (b : bucket) (k : nat) (p : point) :
  In p (pushFuture Date_parse clock f k b) -> clock k <= x p.
Proof.
  intros H. destruct (pushFuture_In _ _ _ _ H) as (j & _ & _ & _ & _ & Hj & Hp).
  specialize (clock_monotone k j Hj). lia.
Qed.

(** In the solar and the consumption series every point earlier than the
    first clock reading of the merge comes from the actual buckets. *)
Lemma solar_stale_predicted_dropped (k : nat) (a : attrs) (p : point) :
  In p (combineSolarData Date_parse clock k a) ->
  x p < clock k -> In p (solarActual Date_parse a).
Proof.
  unfold combineSolarData. rewrite sort_In, in_app_iff.
  intros [H|H] Hlt; [exact H|].
  apply pushFuture_future in H. lia.
Qed.

Lemma consumption_stale_predicted_dropped (k : nat) (a : attrs) (p : point) :
  In p (combineConsumptionData Date_parse clock k a) ->
  x p < clock k -> In p (consumptionActual Date_parse a).
Proof.
  unfold combineConsumptionData. rewrite sort_In, in_app_iff.
  intros [H|H] Hlt; [exact H|].
  apply pushFuture_future in H. lia.
Qed.

(** In the battery series such a point comes from the actual buckets or from
    the bucket of tomorrow's prediction, which is pushed without the test. *)
Lemma battery_stale_predicted_today_dropped (k : nat) (a : attrs) (p : point) :
  In p (combineBatteryData Date_parse clock k a) ->
  x p < clock k ->
  In p (batteryActual Date_parse a)
  \/ In p (pushAll Date_parse identity (orEmpty (battery_tomorrow_predicted a))).
Proof.
  unfold combineBatteryData, batteryPredicted. rewrite sort_In, !in_app_iff.
  intros [H|[H|H]] Hlt; auto.
  apply pushFuture_future in H. lia.
Qed.

End Merged.

(** C3.  Each of the three merges returns a series in ascending order of
    instant, and the sort is stable: at every instant [t] the points of the
    series are the points the actual buckets gave for [t], in the order they
    were pushed, followed by the points kept from the predicted buckets; so a
    point from an actual bucket stands before any point of the same instant
    from a predicted bucket. *)
Theorem merged_series_ascending_actual_first
  (Date_parse : string -> Z) (clock : nat -> Z) (k : nat) (a : attrs) :
  (StronglySorted ascending (combineBatteryData Date_parse clock k a)
   /\ (forall t, filter (at_instant t) (combineBatteryData Date_parse clock k a)
                 = filter (at_instant t) (batteryActual Date_parse a)
                   ++ filter (at_instant t) (batteryPredicted Date_parse clock k a))
   /\ actual_first (batteryActual Date_parse a)
                   (batteryPredicted Date_parse clock k a)
                   (combineBatteryData Date_parse clock k a))
  /\ (StronglySorted ascending (combineSolarData Date_parse clock k a)
      /\ (forall t, filter (at_instant t) (combineSolarData Date_parse clock k a)
                    = filter (at_instant t) (solarActual Date_parse a)
                      ++ filter (at_instant t) (solarPredicted Date_parse clock k a))
      /\ actual_first (solarActual Date_parse a)
                      (solarPredicted Date_parse clock k a)
                      (combineSolarData Date_parse clock k a))
  /\ (StronglySorted ascending (combineConsumptionData Date_parse clock k a)
      /\ (forall t, filter (at_instant t)
                      (combineConsumptionData Date_parse clock k a)
                    = filter (at_instant t) (consumptionActual Date_parse a)
                      ++ filter (at_instant t)
                           (consumptionPredicted Date_parse clock k a))
      /\ actual_first (consumptionActual Date_parse a)
                      (consumptionPredicted Date_parse clock k a)
                      (combineConsumptionData Date_parse clock k a)).
Proof.
  unfold combineBatteryData, combineSolarData, combineConsumptionData.
  repeat split; try apply sort_sorted; try apply sort_actual_first;
    intros t; rewrite filter_sort; apply filter_app.
Qed.

(** The actual reading of 09:00 stands before the prediction for 09:00. *)
Lemma merged_series_ascending_actual_first_witness :
  exists l1 l2 l3,
    combineBatteryData JS.Date_parse_utc morning 0 sameHour
    = l1 ++ mkPoint 1714640400000 5%Q :: l2
         ++ mkPoint 1714640400000 (11 # 2)%Q :: l3.
Proof.
  destruct (merged_series_ascending_actual_first JS.Date_parse_utc morning 0 sameHour)
    as ((_ & _ & H) & _).
  apply H.
  - vm_compute. left. reflexivity.
  - vm_compute. left. reflexivity.
  - reflexivity.
Defined.

(** C1.  The battery merge keeps a point of tomorrow's prediction whose
    instant is before the clock reading of the merge; the solar merge drops
    the same point. *)
Theorem battery_keeps_stale_tomorrow_predicted :
  combineBatteryData JS.Date_parse_utc morning 0 staleBattery
  = [mkPoint 1714608000000 5%Q]
  /\ 1714608000000 < morning 0
  /\ batteryActual JS.Date_parse_utc staleBattery = []
  /\ combineSolarData JS.Date_parse_utc morning 0 staleSolar = [].
Proof. repeat split; vm_compute; reflexivity. Qed.

(** The actual reading of 09:00 stays ahead of the prediction for 09:00. *)
Example battery_same_hour :
  combineBatteryData JS.Date_parse_utc morning 0 sameHour
  = [ mkPoint 1714640400000 5%Q;
      mkPoint 1714640400000 (11 # 2)%Q;
      mkPoint 1714644000000 6%Q ].
Proof. vm_compute. reflexivity. Qed.

End ForecastCardFacts.

(* ===================================================================== *)
(** ** Properties of the loaders *)
(* ===================================================================== *)

Module LoaderFacts.
Import JS Browser LoaderSpec.

(** *** What leaves the console, the document or the requests alone *)

Lemma warnings_app (c1 c2 : list consoleEntry) :
  warnings (c1 ++ c2) = warnings c1 ++ warnings c2.
Proof. unfold warnings. apply flat_map_app. Qed.

Lemma warnings_debugLog (cfg : ChartLoader.config) (msg : string) (w : window) :
  warnings (console (ChartLoader.debugLog cfg msg w)) = warnings (console w).
Proof.
  unfold ChartLoader.debugLog. destruct (ChartLoader.debug cfg); simpl; [|reflexivity].
  rewrite warnings_app. simpl. apply app_nil_r.
Qed.

Lemma warnings_onCatch (s : string) (e : Error) (i n : nat) (w : window) :
  warnings (console (ChartLoader.onCatch s e i n w))
  = warnings (console w) ++ [ChartLoader.warned s e].
Proof.
  unfold ChartLoader.onCatch. destruct (Nat.ltb i (n - 1)); simpl;
    rewrite !warnings_app; simpl; rewrite ?app_nil_r; reflexivity.
Qed.

Lemma console_executor (src : string) (w : window) :
  console (snd (ChartLoader.loadScript_executor src w)) = console w.
Proof.
  unfold ChartLoader.loadScript_executor.
  destruct (hasScript src w); [destruct (ApexCharts w)|]; reflexivity.
Qed.

Lemma console_handler (src : string) (ev : scriptEvent) (w : window) :
  console (snd (ChartLoader.loadScript_handler src ev w)) = console w.
Proof.
  destruct ev as [defines| |]; simpl; try reflexivity.
  destruct (ApexCharts w || defines); reflexivity.
Qed.

Lemma console_loadScript (env : string -> scriptEvent) (src : string) (w : window) :
  console (snd (ChartLoader.loadScript env src w)) = console w.
Proof.
  unfold ChartLoader.loadScript.
  pose proof (console_executor src w) as H.
  destruct (ChartLoader.loadScript_executor src w) as [[r|] w1]; simpl in *.
  - exact H.
  - rewrite console_handler. exact H.
Qed.

(** A promise of [loadScript] that resolves leaves the library present. *)
Lemma handler_resolved (src : string) (ev : scriptEvent) (w w' : window) :
  ChartLoader.loadScript_handler src ev w = (Resolved, w') -> ApexCharts w' = true.
Proof.
  destruct ev as [defines| |]; simpl; try discriminate.
  destruct (ApexCharts w || defines) eqn:E; [|discriminate].
  intros H. injection H as <-. exact E.
Qed.

Lemma loadScript_resolved (env : string -> scriptEvent) (src : string)
  (w w' : window) :
  ChartLoader.loadScript env src w = (Resolved, w') -> ApexCharts w' = true.
Proof.
  unfold ChartLoader.loadScript, ChartLoader.loadScript_executor.
  destruct (hasScript src w).
  - destruct (ApexCharts w) eqn:E; [|discriminate].
    intros H. injection H as <-. exact E.
  - apply handler_resolved.
Qed.

Lemma ApexCharts_debugLog (cfg : ChartLoader.config) (msg : string) (w : window) :
  ApexCharts (ChartLoader.debugLog cfg msg w) = ApexCharts w.
Proof. unfold ChartLoader.debugLog. destruct (ChartLoader.debug cfg); reflexivity. Qed.

Lemma loadLoop_resolved (env : string -> scriptEvent) (cfg : ChartLoader.config)
  (sources : list string) (i n : nat) (w w' : window) :
  ChartLoader.loadLoop env cfg sources i n w = (Resolved, w') ->
  ApexCharts w' = true.
Proof.
  revert i w. induction sources as [|s rest IH]; simpl; intros i w.
  - discriminate.
  - destruct (ChartLoader.loadScript env s _) as [[|e] w1] eqn:E.
    + intros H. injection H as <-. rewrite ApexCharts_debugLog.
      eapply loadScript_resolved. exact E.
    + apply IH.
Qed.

(** A successful [load] leaves the library present. *)
Lemma load_resolved (env : string -> scriptEvent) (cfg : ChartLoader.config)
  (w w' : window) :
  ChartLoader.load env cfg w = (Resolved, w') -> ApexCharts w' = true.
Proof.
  unfold ChartLoader.load. destruct (ApexCharts w) eqn:E.
  - intros H. injection H as <-. now rewrite ApexCharts_debugLog.
  - apply loadLoop_resolved.
Qed.

(** *** The call as a task

    Running the task of a call to its end, with nothing in between, is the
    call. *)
Lemma loadLoop_as_task (env : string -> scriptEvent) (cfg : ChartLoader.config)
  (sources : list string) (i n : nat) (w : window) :
  ChartLoader.loadLoop env cfg sources i n w
  = ChartLoader.complete env cfg (ChartLoader.loopUntilPending cfg sources i n w).
Proof.
  revert i w. induction sources as [|s rest IH]; simpl; intros i w.
  - reflexivity.
  - unfold ChartLoader.loadScript.
    destruct (ChartLoader.loadScript_executor s _) as [[[|e]|] w1]; simpl.
    + reflexivity.
    + apply IH.
    + reflexivity.
Qed.

Lemma load_as_task (env : string -> scriptEvent) (cfg : ChartLoader.config)
  (w : window) :
  ChartLoader.load env cfg w
  = ChartLoader.complete env cfg (ChartLoader.start cfg w).
Proof.
  unfold ChartLoader.load, ChartLoader.start.
  destruct (ApexCharts w); [reflexivity|apply loadLoop_as_task].
Qed.

Lemma complete_resume (env : string -> scriptEvent) (cfg : ChartLoader.config)
  (source : string) (rest : list string) (i n : nat) (w : window) :
  ChartLoader.complete env cfg (ChartLoader.Awaiting source rest i n, w)
  = ChartLoader.complete env cfg
      (ChartLoader.resume cfg (ChartLoader.Awaiting source rest i n) (env source) w).
Proof.
  simpl. destruct (ChartLoader.loadScript_handler source (env source) w) as [[|e] w1].
  - reflexivity.
  - apply loadLoop_as_task.
Qed.

(** *** The failure of the loop *)

Lemma filter_absent (s : string) (l : list string) :
  existsb (String.eqb s) l = false ->
  filter (fun s' => negb (String.eqb s s')) (l ++ [s]) = l.
Proof.
  intros H. rewrite filter_app. simpl. rewrite String.eqb_refl. simpl.
  rewrite app_nil_r. induction l as [|a r IH]; simpl in *; [reflexivity|].
  apply orb_false_iff in H. destruct H as [Ha Hr].
  rewrite Ha. simpl. now rewrite IH.
Qed.

Lemma scripts_debugLog (cfg : ChartLoader.config) (msg : string) (w : window) :
  scripts (ChartLoader.debugLog cfg msg w) = scripts w.
Proof. unfold ChartLoader.debugLog. destruct (ChartLoader.debug cfg); reflexivity. Qed.

Lemma scripts_onCatch (s : string) (e : Error) (i n : nat) (w : window) :
  scripts (ChartLoader.onCatch s e i n w) = scripts w.
Proof. unfold ChartLoader.onCatch. destruct (Nat.ltb i (n - 1)); reflexivity. Qed.

Lemma ApexCharts_onCatch (s : string) (e : Error) (i n : nat) (w : window) :
  ApexCharts (ChartLoader.onCatch s e i n w) = ApexCharts w.
Proof. unfold ChartLoader.onCatch. destruct (Nat.ltb i (n - 1)); reflexivity. Qed.

(** A rejected [loadScript] leaves the library and the script elements of
    the document as it found them. *)
Lemma loadScript_rejected_document (env : string -> scriptEvent) (s : string)
  (w w' : window) (e : Error) :
  ChartLoader.loadScript env s w = (Rejected e, w') ->
  ApexCharts w' = ApexCharts w /\ scripts w' = scripts w.
Proof.
  unfold ChartLoader.loadScript, ChartLoader.loadScript_executor.
  destruct (hasScript s w) eqn:Hs; simpl.
  - destruct (ApexCharts w) eqn:Hlib; [discriminate|].
    intros H. injection H as _ <-. split; [exact Hlib|reflexivity].
  - assert (scripts (removeScript s (appendScript s w)) = scripts w) as Hrm
        by (simpl; now apply filter_absent).
    destruct (env s) as [defines| |]; simpl.
    + destruct (ApexCharts w || defines) eqn:Hd; [discriminate|].
      intros H. injection H as _ <-.
      pose proof (proj1 (proj1 (orb_false_iff _ _) Hd)) as Hlib.
      split; [simpl; now rewrite Hd, Hlib|exact Hrm].
    + intros H. injection H as _ <-. split; [reflexivity|exact Hrm].
    + intros H. injection H as _ <-. split; [reflexivity|exact Hrm].
Qed.

(** How [loadScript] settles depends on the library and the script elements
    of the page only. *)
Lemma loadScript_settles_by_document (env : string -> scriptEvent) (s : string)
  (w1 w2 : window) :
  ApexCharts w1 = ApexCharts w2 -> scripts w1 = scripts w2 ->
  fst (ChartLoader.loadScript env s w1) = fst (ChartLoader.loadScript env s w2).
Proof.
  intros Hlib Hs.
  unfold ChartLoader.loadScript, ChartLoader.loadScript_executor, hasScript.
  rewrite Hs, Hlib. destruct (existsb (String.eqb s) (scripts w2)).
  - destruct (ApexCharts w2); reflexivity.
  - destruct (env s) as [defines| |]; simpl; try reflexivity.
    rewrite Hlib. destruct (ApexCharts w2 || defines); reflexivity.
Qed.

Lemma loadLoop_rejected (env : string -> scriptEvent) (cfg : ChartLoader.config)
  (sources : list string) (i n : nat) (w w' : window) (e : Error) :
  ChartLoader.loadLoop env cfg sources i n w = (Rejected e, w') ->
  e = ChartLoader.exhausted
  /\ exists reasons : list Error,
       Forall2 (rejects env w) sources reasons
       /\ warnings (console w')
          = warnings (console w)
            ++ map (fun sr => ChartLoader.warned (fst sr) (snd sr))
                 (combine sources reasons).
Proof.
  revert i w. induction sources as [|s rest IH]; simpl; intros i w H.
  - injection H as <- <-. split; [reflexivity|].
    exists []. split; [constructor|]. simpl. now rewrite app_nil_r.
  - destruct (ChartLoader.loadScript env s _) as [[|r] w1] eqn:E; [discriminate|].
    destruct (IH _ _ H) as (He & reasons & HF & Hw).
    destruct (loadScript_rejected_document _ _ _ _ _ E) as [Hlib1 Hs1].
    rewrite ApexCharts_debugLog in Hlib1. rewrite scripts_debugLog in Hs1.
    split; [exact He|]. exists (r :: reasons). split.
    + constructor.
      * unfold rejects.
        rewrite <- (loadScript_settles_by_document env s
                      (ChartLoader.debugLog cfg (ChartLoader.trying s) w) w)
          by (first [apply ApexCharts_debugLog | apply scripts_debugLog]).
        rewrite E. reflexivity.
      * eapply Forall2_impl; [|exact HF].
        intros s' r' Hr. unfold rejects in *.
        rewrite <- Hr. apply loadScript_settles_by_document.
        -- rewrite ApexCharts_onCatch. symmetry. exact Hlib1.
        -- rewrite scripts_onCatch. symmetry. exact Hs1.
    + rewrite Hw, warnings_onCatch. simpl.
      replace (console w1) with (console (snd (ChartLoader.loadScript env s
                 (ChartLoader.debugLog cfg (ChartLoader.trying s) w))))
        by (rewrite E; reflexivity).
      rewrite console_loadScript, warnings_debugLog, <- app_assoc. reflexivity.
Qed.

Lemma warnings_log_warn (args : list string) (w : window) :
  warnings (console (log (console_warn args) w)) = warnings (console w) ++ [args].
Proof. simpl. rewrite warnings_app. reflexivity. Qed.

Lemma console_loadScript_local (env : string -> scriptEvent) (src : string)
  (w : window) :
  console (snd (ChartConfig.loadScript env src w)) = console w.
Proof.
  unfold ChartConfig.loadScript. destruct (env src) as [defines| |]; simpl;
    try reflexivity.
  destruct (ApexCharts w || defines); reflexivity.
Qed.

(** A rejected [loadScript] of the loader with strategies leaves the
    library as it found it. *)
Lemma loadScript_local_rejected_library (env : string -> scriptEvent)
  (s : string) (w w' : window) (e : Error) :
  ChartConfig.loadScript env s w = (Rejected e, w') ->
  ApexCharts w' = ApexCharts w.
Proof.
  unfold ChartConfig.loadScript. destruct (env s) as [defines| |]; simpl.
  - destruct (ApexCharts w || defines) eqn:Hd; [discriminate|].
    intros H. injection H as _ <-.
    pose proof (proj1 (proj1 (orb_false_iff _ _) Hd)) as Hlib.
    simpl. now rewrite Hd, Hlib.
  - intros H. injection H as _ <-. reflexivity.
  - intros H. injection H as _ <-. reflexivity.
Qed.

(** How it settles depends on the library of the page only. *)
Lemma loadScript_local_settles_by_library (env : string -> scriptEvent)
  (s : string) (w1 w2 : window) :
  ApexCharts w1 = ApexCharts w2 ->
  fst (ChartConfig.loadScript env s w1) = fst (ChartConfig.loadScript env s w2).
Proof.
  intros Hlib. unfold ChartConfig.loadScript.
  destruct (env s) as [defines| |]; simpl; try reflexivity.
  rewrite Hlib. destruct (ApexCharts w2 || defines); reflexivity.
Qed.

Lemma loadCDN_rejected (env : string -> scriptEvent) (sources : list string)
  (w w' : window) (e : Error) :
  ChartConfig.loadCDN_from env sources w = (Rejected e, w') ->
  e = ChartConfig.exhausted
  /\ exists reasons : list Error,
       Forall2 (rejectsLocal env w) sources reasons
       /\ warnings (console w')
          = warnings (console w)
            ++ map (fun sr => ChartConfig.warned (fst sr) (snd sr))
                 (combine sources reasons).
Proof.
  revert w. induction sources as [|s rest IH]; simpl; intros w H.
  - injection H as <- <-. split; [reflexivity|].
    exists []. split; [constructor|]. simpl. now rewrite app_nil_r.
  - destruct (ChartConfig.loadScript env s w) as [[|r] w1] eqn:E; [discriminate|].
    destruct (IH _ H) as (He & reasons & HF & Hw).
    pose proof (loadScript_local_rejected_library _ _ _ _ _ E) as Hlib1.
    split; [exact He|]. exists (r :: reasons). split.
    + constructor.
      * unfold rejectsLocal. rewrite E. reflexivity.
      * eapply Forall2_impl; [|exact HF].
        intros s' r' Hr. unfold rejectsLocal in *.
        rewrite <- Hr. apply loadScript_local_settles_by_library.
        simpl. symmetry. exact Hlib1.
    + rewrite Hw, warnings_log_warn. simpl.
      replace (console w1) with (console (snd (ChartConfig.loadScript env s w)))
        by (rewrite E; reflexivity).
      rewrite console_loadScript_local, <- app_assoc. reflexivity.
Qed.

(** C2, as the code has it.  When every source fails, [load] fails with one
    fixed error, the same whatever the reasons.  The reasons go to the
    console: the call adds one warning per source, in the order of the
    sources, and no other warning, and the warning of a source names the
    source and carries the message of the error [loadScript] rejected that
    source with in this call (on the page as the call found it).  The same
    holds of [loadCDN] of the loader with strategies. *)
Theorem load_failure_fixed_error_reasons_warned
  (env : string -> scriptEvent) (w w' : window) (e : Error) :
  (forall cfg : ChartLoader.config,
      ChartLoader.load env cfg w = (Rejected e, w') ->
      e = ChartLoader.exhausted
      /\ exists reasons : list Error,
           List.length reasons = List.length (ChartLoader.cdnSources cfg)
           /\ Forall2 (rejects env w) (ChartLoader.cdnSources cfg) reasons
           /\ warnings (console w')
              = warnings (console w)
                ++ map (fun sr => ChartLoader.warned (fst sr) (snd sr))
                     (combine (ChartLoader.cdnSources cfg) reasons))
  /\ (forall cfg : ChartConfig.config,
         ChartConfig.loadCDN env cfg w = (Rejected e, w') ->
         e = ChartConfig.exhausted
         /\ exists reasons : list Error,
              List.length reasons = List.length (ChartConfig.cdnSources cfg)
              /\ Forall2 (rejectsLocal env w) (ChartConfig.cdnSources cfg) reasons
              /\ warnings (console w')
                 = warnings (console w)
                   ++ map (fun sr => ChartConfig.warned (fst sr) (snd sr))
                        (combine (ChartConfig.cdnSources cfg) reasons)).
Proof.
  split; intros cfg H.
  - unfold ChartLoader.load in H. destruct (ApexCharts w); [discriminate|].
    destruct (loadLoop_rejected _ _ _ _ _ _ _ _ H) as (He & reasons & HF & Hw).
    split; [exact He|]. exists reasons. repeat split; auto.
    symmetry. eapply Forall2_length. exact HF.
  - destruct (loadCDN_rejected _ _ _ _ _ H) as (He & reasons & HF & Hw).
    split; [exact He|]. exists reasons. repeat split; auto.
    symmetry. eapply Forall2_length. exact HF.
Qed.

(** On a blank page where every fetch times out, [load] fails with the
    fixed error and the console holds three warnings, each with the
    timeout of its source. *)
Lemma load_failure_fixed_error_reasons_warned_witness :
  ChartLoader.load allTimeout cfg blank
  = (Rejected ChartLoader.exhausted, snd (ChartLoader.load allTimeout cfg blank))
  /\ warnings (console (snd (ChartLoader.load allTimeout cfg blank)))
     = [ timeoutWarning "https://cdn.jsdelivr.net/npm/apexcharts@3.44.0/dist/apexcharts.min.js";
         timeoutWarning "https://unpkg.com/apexcharts@3.44.0/dist/apexcharts.min.js";
         timeoutWarning "https://cdnjs.cloudflare.com/ajax/libs/apexcharts/3.44.0/apexcharts.min.js" ].
Proof.
  assert (ChartLoader.load allTimeout cfg blank
          = (Rejected ChartLoader.exhausted,
             snd (ChartLoader.load allTimeout cfg blank))) as H
    by (vm_compute; reflexivity).
  split; [exact H|].
  destruct (load_failure_fixed_error_reasons_warned allTimeout blank
              (snd (ChartLoader.load allTimeout cfg blank)) ChartLoader.exhausted)
    as [L _].
  destruct (L cfg H) as (_ & reasons & _ & HF & Hw).
  rewrite Hw. clear Hw H L.
  inversion HF as [|s1 r1 l1 l1' H1 HF1]; subst.
  inversion HF1 as [|s2 r2 l2 l2' H2 HF2]; subst.
  inversion HF2 as [|s3 r3 l3 l3' H3 HF3]; subst.
  inversion HF3; subst.
  unfold rejects in H1, H2, H3. simpl in H1, H2, H3.
  injection H1 as <-. injection H2 as <-. injection H3 as <-.
  reflexivity.
Defined.

(** C2, counterexample.  The error does not carry the reasons: on a blank
    page [load] fails with the same error when every fetch times out and
    when every fetch ends in [onerror], though the reasons differ. *)
Lemma load_failure_carries_no_reasons : ~ failure_carries_reasons.
Proof.
  intros [reasonsOf H].
  pose proof (H allTimeout ChartLoader.exhausted
                (snd (ChartLoader.load allTimeout ChartLoader.OIG_CHART_CONFIG blank))
                eq_refl) as H1.
  pose proof (H allOnerror ChartLoader.exhausted
                (snd (ChartLoader.load allOnerror ChartLoader.OIG_CHART_CONFIG blank))
                eq_refl) as H2.
  rewrite H1 in H2. vm_compute in H2. discriminate H2.
Qed.

(** C4.  When the library is present at the call, [load] succeeds at once:
    the task of the call finishes without suspending, no script element is
    added to the document and no fetch is started.  This holds of both
    loaders, whatever the configuration and the network. *)
Theorem load_idempotent_when_library_present
  (env : string -> scriptEvent) (w : window) (Hpresent : ApexCharts w = true) :
  (forall cfg : ChartLoader.config,
      fst (ChartLoader.load env cfg w) = Resolved
      /\ fst (ChartLoader.start cfg w) = ChartLoader.Finished Resolved
      /\ scripts (snd (ChartLoader.load env cfg w)) = scripts w
      /\ requests (snd (ChartLoader.load env cfg w)) = requests w
      /\ ApexCharts (snd (ChartLoader.load env cfg w)) = true)
  /\ (forall cfg : ChartConfig.config,
         fst (ChartConfig.load env cfg w) = Resolved
         /\ scripts (snd (ChartConfig.load env cfg w)) = scripts w
         /\ requests (snd (ChartConfig.load env cfg w)) = requests w
         /\ ApexCharts (snd (ChartConfig.load env cfg w)) = true).
Proof.
  split; intros cfg.
  - unfold ChartLoader.load, ChartLoader.start, ChartLoader.debugLog.
    rewrite Hpresent. destruct (ChartLoader.debug cfg); simpl; auto.
  - unfold ChartConfig.load, ChartConfig.debugLog.
    rewrite Hpresent. destruct (ChartConfig.debug cfg); simpl; auto.
Qed.

Lemma load_idempotent_when_library_present_witness :
  ApexCharts (mkWindow true [] [] []) = true
  /\ ChartLoader.load allTimeout cfg (mkWindow true [] [] [])
     = (Resolved, mkWindow true [] [] [])
  /\ requests (snd (ChartConfig.load allTimeout ChartConfig.OIG_CHART_CONFIG
                      (mkWindow true [] [] []))) = [].
Proof.
  destruct (load_idempotent_when_library_present allTimeout
              (mkWindow true [] [] []) eq_refl) as [L C].
  split; [reflexivity|]. split.
  - vm_compute. reflexivity.
  - destruct (C ChartConfig.OIG_CHART_CONFIG) as (_ & _ & Hr & _). exact Hr.
Defined.

(** After a [load] that succeeded, a further [load] starts no fetch. *)
Corollary load_twice (env env' : string -> scriptEvent) (cfg : ChartLoader.config)
  (w w' : window) :
  ChartLoader.load env cfg w = (Resolved, w') ->
  fst (ChartLoader.load env' cfg w') = Resolved
  /\ requests (snd (ChartLoader.load env' cfg w')) = requests w'.
Proof.
  intros H. apply load_resolved in H.
  unfold ChartLoader.load, ChartLoader.debugLog. rewrite H.
  destruct (ChartLoader.debug cfg); simpl; auto.
Qed.

(** C9.  When a script element with the source is in the document and the
    library is not present, the promise of [loadScript] is rejected by the
    executor itself, with the error [scriptExists]: nothing is awaited, the
    page is left as it was, and how the fetch in flight ends plays no part. *)
Theorem loadScript_rejects_when_script_exists
  (env : string -> scriptEvent) (src : string) (w : window)
  (Hexists : hasScript src w = true) (Habsent : ApexCharts w = false) :
  ChartLoader.loadScript_executor src w = (Some (Rejected ChartLoader.scriptExists), w)
  /\ ChartLoader.loadScript env src w = (Rejected ChartLoader.scriptExists, w).
Proof.
  unfold ChartLoader.loadScript, ChartLoader.loadScript_executor.
  rewrite Hexists, Habsent. split; reflexivity.
Qed.

Lemma loadScript_rejects_when_script_exists_witness :
  ChartLoader.loadScript (fun _ => Onload true) "https://unpkg.com/apexcharts"
    (mkWindow false ["https://unpkg.com/apexcharts"] ["https://unpkg.com/apexcharts"] [])
  = (Rejected ChartLoader.scriptExists,
     mkWindow false ["https://unpkg.com/apexcharts"] ["https://unpkg.com/apexcharts"] []).
Proof.
  apply (loadScript_rejects_when_script_exists (fun _ => Onload true)
           "https://unpkg.com/apexcharts"
           (mkWindow false ["https://unpkg.com/apexcharts"]
                     ["https://unpkg.com/apexcharts"] []));
    reflexivity.
Defined.

(** *** Two calls *)











(** When the fetch [B] started fails before the one [A] awaits, [A] fetches
    again the source [B] has given up: over the two calls that source is
    requested twice. *)
Example source_requested_twice :
  requests (snd laterA)
  = [ "https://cdn.jsdelivr.net/npm/apexcharts@3.44.0/dist/apexcharts.min.js";
      "https://unpkg.com/apexcharts@3.44.0/dist/apexcharts.min.js";
      "https://cdnjs.cloudflare.com/ajax/libs/apexcharts/3.44.0/apexcharts.min.js";
      "https://unpkg.com/apexcharts@3.44.0/dist/apexcharts.min.js" ].
Proof. vm_compute. reflexivity. Qed.

End LoaderFacts.

(* ===================================================================== *)
(** ** Properties of the dashboard *)
(* ===================================================================== *)

Module DashboardFacts.
Import JS Dashboard DashboardSpec.

(** *** Rounding of [toFixed] *)

(** [nearest scale a] is within one half of [a * scale]. *)
Lemma nearest_spec (scale : Z) (a : Q) :
  2 * Zpos (Qden a) * nearest scale a <= 2 * Qnum a * scale + Zpos (Qden a)
  /\ 2 * Qnum a * scale + Zpos (Qden a) < 2 * Zpos (Qden a) * (nearest scale a + 1).
Proof.
  unfold nearest.
  assert (0 < 2 * Zpos (Qden a)) as Hd by lia.
  split.
  - apply Z.mul_div_le. exact Hd.
  - pose proof (Z.mul_succ_div_gt (2 * Qnum a * scale + Zpos (Qden a))
                  (2 * Zpos (Qden a)) Hd) as H.
    unfold Z.succ in H. exact H.
Qed.

(** *** The battery chart *)

Lemma missing_spec (param : option string) :
  missing param = true <-> param = None \/ param = Some "".
Proof.
  destruct param as [s|]; simpl.
  - rewrite String.eqb_eq. split.
    + intros ->. now right.
    + intros [H|H]; congruence.
  - split; auto.
Qed.

(** C6.  With [max_capacity_kwh] absent, the battery chart that
    [renderBatteryChart] creates has a left axis from 0 to 15. *)
Theorem battery_left_axis_default
  (h : host) (sd : sensorData) (a : attributes) (p : timelinePoint)
  (tl : list timelinePoint) (d : dashboard)
  (Hattrs : attrs sd = Some a)
  (Htimeline : timeline_data a = Some (p :: tl))
  (Habsent : max_capacity_kwh a = Undefined) :
  exists o left,
    charts_battery (renderBatteryChart h (Some sd) d) = Some o
    /\ leftAxis o = Some left
    /\ min left = 0%Q
    /\ max left = Num 15%Q.
Proof.
  unfold renderBatteryChart. rewrite Hattrs, Htimeline. simpl.
  eexists. eexists. split; [reflexivity|].
  unfold leftAxis. simpl. split; [reflexivity|].
  rewrite Habsent. split; reflexivity.
Qed.

Lemma battery_left_axis_default_witness :
  exists o left,
    charts_battery (renderBatteryChart noSensors (Some (forecast Undefined)) bothGiven)
    = Some o
    /\ leftAxis o = Some left
    /\ min left = 0%Q
    /\ max left = Num 15%Q.
Proof.
  apply (battery_left_axis_default noSensors (forecast Undefined) _ _ _ bothGiven
           eq_refl eq_refl eq_refl).
Defined.

(** C7.  The annotations of the battery chart are those of the spot prices,
    one each and in their order; the annotation of a price stands at twice
    the price and is labelled with the price itself, to one decimal. *)
Theorem price_annotation_scaled_label_unscaled
  (parse : string -> Z) (isDark : bool) (a : attributes)
  (timelineData : list timelinePoint) :
  Forall2 annotates
    (spotPricesOf parse timelineData)
    (annotations_points (batteryChartOptions parse isDark a timelineData)).
Proof.
  simpl. induction (spotPricesOf parse timelineData) as [|[t price] r IH]; simpl.
  - constructor.
  - constructor; [|exact IH]. repeat split.
Qed.

(** The annotation of the price 2.45: at 4.9, labelled 2.5. *)
Example price_annotation_example :
  annotations_points (batteryChartOptions Date_parse_utc false
                        (mkAttributes (Some timeline) Undefined Undefined None None None)
                        timeline)
  = [mkPointAnnotation 1714636800000 (490 # 100)%Q 0 "2.5" "#FF0000"].
Proof. vm_compute. reflexivity. Qed.

(** C10.  The maximum of the left axis is 15 whenever [max_capacity_kwh]
    is falsy, absent or not, and it is never the number 0. *)
Theorem battery_left_axis_max_never_zero
  (parse : string -> Z) (isDark : bool) (a : attributes)
  (timelineData : list timelinePoint) (left : axis)
  (Hleft : leftAxis (batteryChartOptions parse isDark a timelineData) = Some left) :
  (truthy (max_capacity_kwh a) = false -> max left = Num 15%Q)
  /\ forall q, max left = Num q -> ~ (q == 0)%Q.
Proof.
  unfold leftAxis in Hleft. simpl in Hleft. injection Hleft as <-. simpl.
  unfold or_else. split.
  - intros ->. reflexivity.
  - intros q. destruct (truthy (max_capacity_kwh a)) eqn:E.
    + intros Hq. rewrite Hq in E. simpl in E.
      apply negb_true_iff, Z.eqb_neq in E.
      unfold Qeq. simpl. lia.
    + intros Hq. injection Hq as <-. discriminate.
Qed.

Lemma battery_left_axis_max_never_zero_witness :
  exists left,
    leftAxis (batteryChartOptions Date_parse_utc false
                (mkAttributes (Some timeline) (Num 0%Q) Undefined None None None)
                timeline) = Some left
    /\ max left = Num 15%Q.
Proof.
  eexists. split; [reflexivity|].
  apply (battery_left_axis_max_never_zero Date_parse_utc false
           (mkAttributes (Some timeline) (Num 0%Q) Undefined None None None)
           timeline _ eq_refl).
  reflexivity.
Defined.

(** *** Initialisation *)

(** C8, as the code has it.  [init] is rejected with [missingParameters]
    when [entry_id] or [inverter_sn] is absent or empty, and then the
    dashboard is left without charts written, without placeholder and
    without timer; otherwise it resolves after [loadAndRenderCharts] has run
    and the timer of 120000 ms is set. *)
Theorem init_fails_fast_or_proceeds (h : host) (d : dashboard) :
  (entryId d = None \/ entryId d = Some ""
   \/ inverterSn d = None \/ inverterSn d = Some "" ->
   init h d = (Rejected missingParameters, announce d)
   /\ charts_battery (announce d) = charts_battery d
   /\ charts_solar (announce d) = charts_solar d
   /\ charts_prices (announce d) = charts_prices d
   /\ innerHTML (announce d) = innerHTML d
   /\ updateInterval (announce d) = updateInterval d)
  /\ (forall e s, entryId d = Some e -> e <> "" ->
                  inverterSn d = Some s -> s <> "" ->
      init h d = (Resolved, setInterval 120000 (loadAndRenderCharts h (announce d)))
      /\ updateInterval (snd (init h d)) = Some 120000).
Proof.
  split.
  - intros H.
    assert (missing (entryId d) || missing (inverterSn d) = true) as Hm.
    { apply orb_true_iff. rewrite !missing_spec. tauto. }
    unfold init. simpl. rewrite Hm. repeat split.
  - intros e s He Hne Hs Hns.
    assert (missing (entryId d) || missing (inverterSn d) = false) as Hm.
    { apply orb_false_iff. rewrite He, Hs. simpl.
      split; apply String.eqb_neq; assumption. }
    unfold init. simpl. rewrite Hm. split; reflexivity.
Qed.

Lemma init_fails_fast_or_proceeds_witness :
  (init noSensors noEntryId = (Rejected missingParameters, announce noEntryId)
   /\ charts_battery (announce noEntryId) = None
   /\ updateInterval (announce noEntryId) = None)
  /\ fst (init noSensors bothGiven) = Resolved
  /\ updateInterval (snd (init noSensors bothGiven)) = Some 120000.
Proof.
  destruct (init_fails_fast_or_proceeds noSensors noEntryId) as [F _].
  destruct (init_fails_fast_or_proceeds noSensors bothGiven) as [_ P].
  split.
  - destruct (F (or_introl eq_refl)) as (Hi & Hb & _ & _ & _ & Hu).
    repeat split; assumption.
  - destruct (P "abc123" "2206237016" eq_refl ltac:(discriminate)
                eq_refl ltac:(discriminate)) as (Hi & Hu).
    split; [rewrite Hi; reflexivity|exact Hu].
Defined.

(** C8, counterexample.  On the page opened with
    [?entry_id=&inverter_sn=2206237016] both parameters are present and
    [init] is rejected all the same. *)
Lemma init_rejects_empty_entry_id :
  entryId emptyEntryId = Some ""
  /\ inverterSn emptyEntryId = Some "2206237016"
  /\ fst (init noSensors emptyEntryId) = Rejected missingParameters.
Proof. repeat split. Qed.

End DashboardFacts.

(* ===================================================================== *)
(** ** Further properties of the merges and of the series *)
(* ===================================================================== *)

Module ForecastCardSeriesFacts.
Import JS ForecastCard MergeSpec ForecastCardFacts ForecastCardSeries.

(** *** Objects as lists of entries *)

Lemma lookup_app (k : string) (o1 o2 : bucket) :
  lookup k (o1 ++ o2)
  = match lookup k o1 with
    | Some v => Some v
    | None => lookup k o2
    end.
Proof.
  induction o1 as [|[k' v'] r IH]; simpl; [reflexivity|].
  destruct (String.eqb k' k); [reflexivity|exact IH].
Qed.

Lemma lookup_assign (o : bucket) (k k' : string) (v : Q) :
  lookup k' (assign o k v) = if String.eqb k k' then Some v else lookup k' o.
Proof.
  induction o as [|[k0 v0] r IH]; simpl.
  - reflexivity.
  - destruct (String.eqb k0 k) eqn:E0; simpl.
    + apply String.eqb_eq in E0. subst k0.
      destruct (String.eqb k k'); reflexivity.
    + destruct (String.eqb k0 k') eqn:E1.
      * apply String.eqb_eq in E1. subst k0.
        rewrite String.eqb_sym, E0. reflexivity.
      * exact IH.
Qed.

Lemma lookup_fold (l acc : bucket) (k : string) :
  lookup k (fold_left (fun o kv => assign o (fst kv) (snd kv)) l acc)
  = match lookup k (rev l) with
    | Some v => Some v
    | None => lookup k acc
    end.
Proof.
  revert acc. induction l as [|[k0 v0] r IH]; intros acc; simpl.
  - reflexivity.
  - rewrite IH, lookup_app, lookup_assign. simpl.
    destruct (lookup k (rev r)); [reflexivity|].
    destruct (String.eqb k0 k); reflexivity.
Qed.

Lemma lookup_none (k : string) (o : bucket) :
  lookup k o = None <-> ~ In k (map fst o).
Proof.
  induction o as [|[k' v'] r IH]; simpl.
  - tauto.
  - destruct (String.eqb k' k) eqn:E.
    + apply String.eqb_eq in E. split; [discriminate|]. intros H. exfalso. auto.
    + apply String.eqb_neq in E. rewrite IH. tauto.
Qed.

(** In an object, whose keys are distinct, a key has the value of its
    entry. *)
Lemma lookup_In (k : string) (v : Q) (o : bucket) :
  NoDup (map fst o) -> (lookup k o = Some v <-> In (k, v) o).
Proof.
  induction o as [|[k' v'] r IH]; simpl; intros Hnd.
  - split; [discriminate|tauto].
  - inversion Hnd as [|? ? Hnotin Hr]; subst.
    destruct (String.eqb k' k) eqn:E.
    + apply String.eqb_eq in E. subst k'. split.
      * intros H. injection H as ->. now left.
      * intros [H|H]; [congruence|].
        exfalso. apply Hnotin. change k with (fst (k, v)). now apply in_map.
    + apply String.eqb_neq in E. rewrite (IH Hr). split; [tauto|].
      intros [H|H]; [congruence|exact H].
Qed.

Lemma lookup_rev (k : string) (o : bucket) :
  NoDup (map fst o) -> lookup k (rev o) = lookup k o.
Proof.
  intros Hnd.
  assert (NoDup (map fst (rev o))) as Hrev.
  { rewrite map_rev. apply NoDup_rev. exact Hnd. }
  destruct (lookup k o) as [v|] eqn:E.
  - apply lookup_In; [exact Hrev|]. apply in_rev. rewrite rev_involutive.
    now apply lookup_In in E.
  - apply lookup_none. apply lookup_none in E.
    rewrite map_rev. intros H. apply E. now apply in_rev.
Qed.

Lemma assign_keys (o : bucket) (k : string) (v : Q) :
  map fst (assign o k v)
  = if in_dec string_dec k (map fst o) then map fst o else map fst o ++ [k].
Proof.
  induction o as [|[k0 v0] r IH]; simpl; [reflexivity|].
  destruct (String.eqb k0 k) eqn:E; simpl.
  - apply String.eqb_eq in E.
    destruct (string_dec k0 k) as [Y|N]; [reflexivity|contradiction].
  - apply String.eqb_neq in E. rewrite IH.
    destruct (string_dec k0 k) as [Y|N]; [contradiction|].
    destruct (in_dec string_dec k (map fst r)); reflexivity.
Qed.

Lemma assign_NoDup (o : bucket) (k : string) (v : Q) :
  NoDup (map fst o) -> NoDup (map fst (assign o k v)).
Proof.
  intros H. rewrite assign_keys.
  destruct (in_dec string_dec k (map fst o)) as [Hin|Hnot]; [exact H|].
  apply NoDup_app; [exact H|repeat constructor; simpl; tauto|].
  intros k' H1 [E|[]]. subst k'. contradiction.
Qed.

Lemma fold_NoDup (l acc : bucket) :
  NoDup (map fst acc) ->
  NoDup (map fst (fold_left (fun o kv => assign o (fst kv) (snd kv)) l acc)).
Proof.
  revert acc. induction l as [|[k v] r IH]; intros acc H; simpl.
  - exact H.
  - apply IH. now apply assign_NoDup.
Qed.

(** X1.  [{...a, ...b}] has each key once; a key of [b] has the value [b]
    gives it, any other key the value it has in [a].  So a timestamp that
    yesterday's and today's bucket share gives one point, with today's
    reading. *)
Theorem spread_later_bucket_wins (a b : bucket) (k : string)
  (Ha : NoDup (map fst a)) (Hb : NoDup (map fst b)) :
  NoDup (map fst (spread a b))
  /\ lookup k (spread a b)
     = match lookup k b with
       | Some v => Some v
       | None => lookup k a
       end.
Proof.
  unfold spread. split.
  - apply fold_NoDup. constructor.
  - rewrite lookup_fold, rev_app_distr, lookup_app, !lookup_rev by assumption.
    destruct (lookup k b); [reflexivity|].
    destruct (lookup k a); reflexivity.
Qed.

Lemma spread_later_bucket_wins_witness :
  lookup "2024-05-02T00:00:00Z"
         (spread (orEmpty (solar_yesterday_actual solarOverlap))
                 (orEmpty (solar_today_actual solarOverlap)))
  = Some 3%Q.
Proof.
  destruct (spread_later_bucket_wins
              (orEmpty (solar_yesterday_actual solarOverlap))
              (orEmpty (solar_today_actual solarOverlap))
              "2024-05-02T00:00:00Z") as [_ H].
  - vm_compute. repeat constructor; simpl; intuition discriminate.
  - vm_compute. repeat constructor; simpl; intuition discriminate.
  - rewrite H. reflexivity.
Defined.

(** *** What the merges keep and what they drop *)

Lemma pushAll_In (parse : string -> Z) (f : Q -> Q) (b : bucket)
  (timestamp : string) (value : Q) :
  In (timestamp, value) b -> In (mkPoint (parse timestamp) (f value)) (pushAll parse f b).
Proof.
  intros H. unfold pushAll.
  change (mkPoint (parse timestamp) (f value))
    with ((fun kv : string * Q => mkPoint (parse (fst kv)) (f (snd kv)))
            (timestamp, value)).
  now apply in_map.
Qed.

Lemma pushFuture_complete (parse : string -> Z) (clock : nat -> Z) (f : Q -> Q)
  (b : bucket) (k : nat) (timestamp : string) (value : Q) :
  (forall j, clock j <= parse timestamp) ->
  In (timestamp, value) b ->
  In (mkPoint (parse timestamp) (f value)) (pushFuture parse clock f k b).
Proof.
  intros Hfuture. revert k. induction b as [|[ts v] r IH]; simpl; intros k H.
  - contradiction.
  - destruct H as [H|H].
    + injection H as -> ->.
      assert ((clock k <=? parse timestamp) = true) as ->
          by (apply Z.leb_le; apply Hfuture).
      now left.
    + destruct (clock k <=? parse ts); [right|]; now apply IH.
Qed.

(** X2.  With a clock that does not run backwards, a point earlier than the
    clock reading at the start of a merge is in the solar or in the
    consumption series only if an actual bucket gave it; in the battery
    series only if an actual bucket or the bucket of tomorrow's prediction
    gave it. *)
Theorem stale_predictions_dropped_where_tested
  (parse : string -> Z) (clock : nat -> Z) (k : nat) (a : attrs) (p : point)
  (Hclock : forall i j, (i <= j)%nat -> clock i <= clock j)
  (Hstale : x p < clock k) :
  (In p (combineSolarData parse clock k a) -> In p (solarActual parse a))
  /\ (In p (combineConsumptionData parse clock k a)
      -> In p (consumptionActual parse a))
  /\ (In p (combineBatteryData parse clock k a)
      -> In p (batteryActual parse a)
         \/ In p (pushAll parse identity (orEmpty (battery_tomorrow_predicted a)))).
Proof.
  repeat split; intros H.
  - eapply solar_stale_predicted_dropped; eauto.
  - eapply consumption_stale_predicted_dropped; eauto.
  - eapply battery_stale_predicted_today_dropped; eauto.
Qed.

Lemma stale_predictions_dropped_where_tested_witness :
  In (mkPoint 1714611600000 4%Q) (combineSolarData Date_parse_utc eight 0 solarOverlap)
  /\ In (mkPoint 1714611600000 4%Q) (solarActual Date_parse_utc solarOverlap).
Proof.
  assert (In (mkPoint 1714611600000 4%Q)
             (combineSolarData Date_parse_utc eight 0 solarOverlap)) as H
      by (vm_compute; tauto).
  split; [exact H|].
  apply (stale_predictions_dropped_where_tested Date_parse_utc eight 0 solarOverlap
           (mkPoint 1714611600000 4%Q)); [intros; unfold eight; lia|reflexivity|exact H].
Defined.

(** X3.  An entry of a predicted bucket whose instant no clock reading
    exceeds gives a point of the series: of the battery series for today's
    prediction, of the solar and the consumption series for today's and
    tomorrow's, the consumption one with the magnitude of the reading. *)
Theorem future_predictions_kept
  (parse : string -> Z) (clock : nat -> Z) (k : nat) (a : attrs)
  (timestamp : string) (value : Q)
  (Hfuture : forall j, clock j <= parse timestamp) :
  (In (timestamp, value) (orEmpty (battery_today_predicted a))
   -> In (mkPoint (parse timestamp) value) (combineBatteryData parse clock k a))
  /\ (In (timestamp, value)
         (spread (orEmpty (solar_today_predicted a))
                 (orEmpty (solar_tomorrow_predicted a)))
      -> In (mkPoint (parse timestamp) value) (combineSolarData parse clock k a))
  /\ (In (timestamp, value)
         (spread (orEmpty (consumption_today_predicted a))
                 (orEmpty (consumption_tomorrow_predicted a)))
      -> In (mkPoint (parse timestamp) (Qabs value))
            (combineConsumptionData parse clock k a)).
Proof.
  unfold combineBatteryData, combineSolarData, combineConsumptionData,
    batteryPredicted, solarPredicted, consumptionPredicted.
  repeat split; intros H; apply sort_In; rewrite !in_app_iff.
  - right. left.
    apply (pushFuture_complete parse clock identity _ k _ _ Hfuture H).
  - right. apply (pushFuture_complete parse clock identity _ k _ _ Hfuture H).
  - right. apply (pushFuture_complete parse clock Qabs _ k _ _ Hfuture H).
Qed.

Lemma future_predictions_kept_witness :
  In (mkPoint 1714640400000 7%Q) (combineBatteryData Date_parse_utc eight 0 batteryDay).
Proof.
  apply (future_predictions_kept Date_parse_utc eight 0 batteryDay
           "2024-05-02T09:00:00Z" 7%Q).
  - intros j. vm_compute. discriminate.
  - vm_compute. tauto.
Defined.

(** X4.  The battery series has a point for every entry of yesterday's and
    today's actual buckets and of tomorrow's prediction, whatever the clock;
    the solar series has one for every entry of the spread of its actual
    buckets. *)
Theorem actual_readings_kept
  (parse : string -> Z) (clock : nat -> Z) (k : nat) (a : attrs)
  (timestamp : string) (value : Q) :
  (In (timestamp, value) (orEmpty (battery_yesterday_actual a))
   \/ In (timestamp, value) (orEmpty (battery_today_actual a))
   \/ In (timestamp, value) (orEmpty (battery_tomorrow_predicted a))
   -> In (mkPoint (parse timestamp) value) (combineBatteryData parse clock k a))
  /\ (In (timestamp, value)
         (spread (orEmpty (solar_yesterday_actual a)) (orEmpty (solar_today_actual a)))
      -> In (mkPoint (parse timestamp) value) (combineSolarData parse clock k a)).
Proof.
  unfold combineBatteryData, combineSolarData, batteryActual, batteryPredicted,
    solarActual.
  split; intros H; apply sort_In; rewrite !in_app_iff.
  - destruct H as [H|[H|H]].
    + left. left. apply (pushAll_In parse identity _ _ _ H).
    + left. right. apply (pushAll_In parse identity _ _ _ H).
    + right. right. apply (pushAll_In parse identity _ _ _ H).
  - left. apply (pushAll_In parse identity _ _ _ H).
Qed.

Lemma actual_readings_kept_witness :
  In (mkPoint 1714633200000 5%Q) (combineBatteryData Date_parse_utc eight 0 batteryDay).
Proof.
  apply (actual_readings_kept Date_parse_utc eight 0 batteryDay
           "2024-05-02T07:00:00Z" 5%Q).
  right. left. vm_compute. tauto.
Defined.

Lemma pushAll_abs (parse : string -> Z) (b : bucket) :
  Forall (fun p => (0 <= y p)%Q) (pushAll parse Qabs b).
Proof.
  unfold pushAll. apply Forall_forall. intros p H.
  apply in_map_iff in H. destruct H as ([ts v] & <- & _). simpl.
  apply Qabs_nonneg.
Qed.

Lemma pushFuture_abs (parse : string -> Z) (clock : nat -> Z) (b : bucket) (k : nat) :
  Forall (fun p => (0 <= y p)%Q) (pushFuture parse clock Qabs k b).
Proof.
  revert k. induction b as [|[ts v] r IH]; simpl; intros k.
  - constructor.
  - destruct (clock k <=? parse ts); [constructor|]; auto.
    simpl. apply Qabs_nonneg.
Qed.

(** X5.  No point of the consumption series has a negative value, whatever
    the signs of the readings. *)
Theorem consumption_series_nonnegative
  (parse : string -> Z) (clock : nat -> Z) (k : nat) (a : attrs) :
  Forall (fun p => (0 <= y p)%Q) (combineConsumptionData parse clock k a).
Proof.
  unfold combineConsumptionData.
  eapply Permutation_Forall; [symmetry; apply sort_perm|].
  apply Forall_app. split.
  - apply pushAll_abs.
  - apply pushFuture_abs.
Qed.

(** The reading -350 of 07:00 is shown as 350, and the stale prediction
    dropped. *)
Example consumption_series_example :
  combineConsumptionData Date_parse_utc eight 0 solarOverlap
  = [mkPoint 1714633200000 350%Q; mkPoint 1714640400000 400%Q].
Proof. vm_compute. reflexivity. Qed.

(** *** The series of the chart *)

Lemma pushIfData_Forall (P : series -> Prop) (s : series) (acc : list series) :
  Forall P acc -> (data s <> [] -> P s) -> Forall P (pushIfData s acc).
Proof.
  intros Hacc Hs. unfold pushIfData. destruct (data s) as [|p r] eqn:E.
  - exact Hacc.
  - apply Forall_app. split; [exact Hacc|].
    constructor; [|constructor]. apply Hs. discriminate.
Qed.

Lemma pushIfData_length (s : series) (acc : list series) :
  (List.length (pushIfData s acc) <= S (List.length acc))%nat.
Proof.
  unfold pushIfData. destruct (data s); [lia|].
  rewrite length_app. simpl. lia.
Qed.

(** X6.  Every series [prepareSeries] returns has at least one point, and
    its points are in ascending order of instant; there are at most four
    series. *)
Theorem prepareSeries_nonempty_ascending
  (parse : string -> Z) (clock : nat -> Z) (times09 : value -> Q)
  (k : nat) (a : attrs) (c : chargingAttrs) :
  Forall (fun s => data s <> [] /\ StronglySorted ascending (data s))
         (prepareSeries parse clock times09 k a c)
  /\ (List.length (prepareSeries parse clock times09 k a c) <= 4)%nat.
Proof.
  unfold prepareSeries. split.
  - repeat apply pushIfData_Forall;
      [constructor|intros H; split; [exact H|simpl; apply sort_sorted]..].
  - repeat (etransitivity; [apply pushIfData_length|apply le_n_S]). simpl. lia.
Qed.

(** Without any attribute there is no series. *)
Example prepareSeries_no_data :
  prepareSeries Date_parse_utc eight ninetenths 0 noAttrs noCharging = [].
Proof. vm_compute. reflexivity. Qed.

(** X7.  The marks of the charging hours are as many as the hours of today
    and tomorrow, in ascending order of instant, and all at one height: nine
    tenths of the capacity, for which 10 stands in when the configuration,
    or the capacity in it, is missing or falsy. *)
Theorem prepareChargingData_marks
  (parse : string -> Z) (times09 : value -> Q) (c : chargingAttrs) :
  List.length (prepareChargingData parse times09 c)
  = (List.length (orNone (charging_hours_today c))
     + List.length (orNone (charging_hours_tomorrow c)))%nat
  /\ StronglySorted ascending (prepareChargingData parse times09 c)
  /\ Forall (fun p => y p = times09 (maxCapacityOf c))
            (prepareChargingData parse times09 c)
  /\ ((battery_config c = None
       \/ (exists b, battery_config c = Some b /\ truthy (max_capacity_kwh b) = false))
      -> maxCapacityOf c = Num 10%Q).
Proof.
  unfold prepareChargingData. repeat split.
  - rewrite (Permutation_length (sort_perm _)), length_map, length_app. reflexivity.
  - apply sort_sorted.
  - eapply Permutation_Forall; [symmetry; apply sort_perm|].
    apply Forall_forall. intros p H. apply in_map_iff in H.
    destruct H as (ts & <- & _). reflexivity.
  - unfold maxCapacityOf, or_else. intros [->|(b & -> & ->)]; reflexivity.
Qed.

Lemma prepareChargingData_marks_witness :
  maxCapacityOf someCharging = Num 10%Q
  /\ prepareChargingData Date_parse_utc ninetenths someCharging
     = [ mkPoint 1714651200000 (90 # 10)%Q; mkPoint 1714654800000 (90 # 10)%Q;
         mkPoint 1714701600000 (90 # 10)%Q ].
Proof.
  destruct (prepareChargingData_marks Date_parse_utc ninetenths someCharging)
    as (_ & _ & _ & H).
  split.
  - apply H. right. eexists. split; reflexivity.
  - vm_compute. reflexivity.
Defined.

End ForecastCardSeriesFacts.

(* ===================================================================== *)
(** ** Further properties of the loaders *)
(* ===================================================================== *)

Module LoaderMoreFacts.
Import JS Browser LoaderSpec LoaderMoreSpec LoaderFacts.

(** *** The CDN-only loader *)














(** *** The loader with strategies *)

Lemma local_loadScript_inv (env : string -> scriptEvent) (src : string)
  (w w' : window) (r : settled) :
  ChartConfig.loadScript env src w = (r, w') ->
  scripts w' = scripts w ++ [src]
  /\ requests w' = requests w ++ [src]
  /\ (r = Resolved -> ApexCharts w' = true)
  /\ (ApexCharts w = false -> env src = Onload true -> r = Resolved).
Proof.
  unfold ChartConfig.loadScript. destruct (env src) as [defines| |]; simpl.
  - destruct (ApexCharts w || defines) eqn:E; intros H; injection H as <- <-;
      simpl; repeat split; auto; try discriminate.
    intros Hlib Hd. injection Hd as ->. rewrite Hlib in E. discriminate.
  - intros H. injection H as <- <-. simpl. repeat split; auto; discriminate.
  - intros H. injection H as <- <-. simpl. repeat split; auto; discriminate.
Qed.

Lemma scripts_local_debugLog (cfg : ChartConfig.config) (msg : string) (w : window) :
  scripts (ChartConfig.debugLog cfg msg w) = scripts w
  /\ requests (ChartConfig.debugLog cfg msg w) = requests w
  /\ ApexCharts (ChartConfig.debugLog cfg msg w) = ApexCharts w.
Proof. unfold ChartConfig.debugLog. destruct (ChartConfig.debug cfg); auto. Qed.

Lemma loadCDN_from_inv (env : string -> scriptEvent) (sources : list string)
  (w w' : window) (r : settled) :
  ChartConfig.loadCDN_from env sources w = (r, w') ->
  exists tried rest,
    sources = tried ++ rest
    /\ scripts w' = scripts w ++ tried
    /\ requests w' = requests w ++ tried
    /\ (r = Resolved -> ApexCharts w' = true)
    /\ (r <> Resolved -> rest = []).
Proof.
  revert w. induction sources as [|s rest IH]; simpl; intros w H.
  - injection H as <- <-. exists [], []. rewrite !app_nil_r.
    repeat split; auto. discriminate.
  - destruct (ChartConfig.loadScript env s w) as [[|e] w1] eqn:E.
    + injection H as <- <-.
      destruct (local_loadScript_inv _ _ _ _ _ E) as (Hs & Hr & Hlib & _).
      exists [s], rest. repeat split; auto. intros N. now contradiction N.
    + destruct (local_loadScript_inv _ _ _ _ _ E) as (Hs & Hr & _ & _).
      destruct (IH _ H) as (tried & rest' & -> & Hs' & Hr' & Hlib' & Hrest).
      simpl in Hs', Hr'.
      exists (s :: tried), rest'. repeat split; auto.
      * rewrite Hs', Hs, <- app_assoc. reflexivity.
      * rewrite Hr', Hr, <- app_assoc. reflexivity.
Qed.

Lemma local_load_inv (env : string -> scriptEvent) (cfg : ChartConfig.config)
  (w w' : window) (r : settled) :
  ApexCharts w = false ->
  ChartConfig.load env cfg w = (r, w') ->
  exists tried rest,
    attemptedByStrategy cfg = tried ++ rest
    /\ scripts w' = scripts w ++ tried
    /\ requests w' = requests w ++ tried
    /\ (r = Resolved -> ApexCharts w' = true)
    /\ (r <> Resolved -> rest = []).
Proof.
  intros Hlib. unfold ChartConfig.load, attemptedByStrategy. rewrite Hlib.
  destruct (String.eqb (ChartConfig.loadStrategy cfg) "local").
  - unfold ChartConfig.loadLocal. intros H.
    destruct (local_loadScript_inv _ _ _ _ _ H) as (Hs & Hr & Hl & _).
    destruct r as [|e].
    + exists [ChartConfig.localPath cfg], []. repeat split; auto.
    + exists [ChartConfig.localPath cfg], []. repeat split; auto.
  - destruct (String.eqb (ChartConfig.loadStrategy cfg) "cdn").
    + unfold ChartConfig.loadCDN. apply loadCDN_from_inv.
    + unfold ChartConfig.loadAuto, ChartConfig.loadLocal.
      destruct (ChartConfig.loadScript env (ChartConfig.localPath cfg) w)
        as [[|e] w1] eqn:E;
        destruct (local_loadScript_inv _ _ _ _ _ E) as (Hs & Hr & Hl & _).
      * intros H. injection H as <- <-.
        destruct (scripts_local_debugLog cfg "Apex Charts načten lokálně" w1)
          as (-> & -> & ->).
        exists [ChartConfig.localPath cfg], (ChartConfig.cdnSources cfg).
        repeat split; auto. intros N. now contradiction N.
      * unfold ChartConfig.loadCDN.
        destruct (ChartConfig.loadCDN_from env _ _) as [[|e'] w2] eqn:E2;
          intros H; injection H as <- <-;
          destruct (loadCDN_from_inv _ _ _ _ _ E2)
            as (tried & rest & Hsrc & Hs2 & Hr2 & Hl2 & Hrest);
          simpl in Hs2, Hr2;
          exists (ChartConfig.localPath cfg :: tried), rest.
        -- destruct (scripts_local_debugLog cfg "Apex Charts načten z CDN" w2)
             as (-> & -> & ->).
           rewrite Hsrc, Hs2, Hr2, Hs, Hr, <- !app_assoc.
           repeat split; auto.
        -- rewrite Hsrc, Hs2, Hr2, Hs, Hr, <- !app_assoc.
           repeat split; auto.
Qed.

(** X11.  The loader with strategies never removes a script element: a
    call of [load] on a page without the library adds to the document one
    script element for each fetch it starts, in order, and keeps them
    whatever the outcome.  The fetches are those of an initial part of the
    sources of the strategy (the local path, the CDNs, or the local path
    followed by the CDNs), all of them when the call fails. *)
Theorem strategy_loader_keeps_script_elements
  (env : string -> scriptEvent) (cfg : ChartConfig.config) (w w' : window)
  (r : settled)
  (Habsent : ApexCharts w = false)
  (Hcall : ChartConfig.load env cfg w = (r, w')) :
  exists tried rest,
    attemptedByStrategy cfg = tried ++ rest
    /\ scripts w' = scripts w ++ tried
    /\ requests w' = requests w ++ tried
    /\ (r <> Resolved -> rest = []).
Proof.
  destruct (local_load_inv env cfg w w' r Habsent Hcall)
    as (tried & rest & H1 & H2 & H3 & _ & H5).
  exists tried, rest. auto.
Qed.

Lemma strategy_loader_keeps_script_elements_witness :
  scripts (snd (ChartConfig.load allTimeout ChartConfig.OIG_CHART_CONFIG blank))
  = ChartConfig.localPath ChartConfig.OIG_CHART_CONFIG
    :: ChartConfig.cdnSources ChartConfig.OIG_CHART_CONFIG.
Proof.
  destruct (strategy_loader_keeps_script_elements allTimeout
              ChartConfig.OIG_CHART_CONFIG blank
              (snd (ChartConfig.load allTimeout ChartConfig.OIG_CHART_CONFIG blank))
              (Rejected ChartConfig.exhausted) eq_refl)
    as (tried & rest & Hsrc & Hs & _ & Hrest).
  - vm_compute. reflexivity.
  - rewrite (Hrest ltac:(discriminate)), app_nil_r in Hsrc.
    rewrite Hs, <- Hsrc. reflexivity.
Defined.

(** X12.  A call of [load] that succeeds leaves the library present; this
    holds of both loaders, for every configuration and network. *)
Theorem resolved_load_leaves_library_present
  (env : string -> scriptEvent) (w w' : window) :
  (forall cfg : ChartLoader.config,
      ChartLoader.load env cfg w = (Resolved, w') -> ApexCharts w' = true)
  /\ (forall cfg : ChartConfig.config,
         ChartConfig.load env cfg w = (Resolved, w') -> ApexCharts w' = true).
Proof.
  split; intros cfg H.
  - eapply load_resolved. exact H.
  - destruct (ApexCharts w) eqn:Hlib.
    + unfold ChartConfig.load in H. rewrite Hlib in H. injection H as <-.
      now destruct (scripts_local_debugLog cfg "Apex Charts už je načten" w)
        as (_ & _ & ->).
    + destruct (local_load_inv env cfg w w' Resolved Hlib H)
        as (_ & _ & _ & _ & _ & Hl & _).
      now apply Hl.
Qed.

Lemma resolved_load_leaves_library_present_witness :
  ApexCharts (snd (ChartLoader.load secondLoads cfg blank)) = true
  /\ ApexCharts (snd (ChartConfig.load localLoads ChartConfig.OIG_CHART_CONFIG blank))
     = true.
Proof.
  split.
  - destruct (resolved_load_leaves_library_present secondLoads blank
                (snd (ChartLoader.load secondLoads cfg blank))) as [H _].
    apply (H cfg). vm_compute. reflexivity.
  - destruct (resolved_load_leaves_library_present localLoads blank
                (snd (ChartConfig.load localLoads ChartConfig.OIG_CHART_CONFIG blank)))
      as [_ H].
    apply (H ChartConfig.OIG_CHART_CONFIG). vm_compute. reflexivity.
Defined.

(** X13.  With the strategy [auto], on a page without the library, the
    local copy is fetched first; when it loads and defines the library the
    call succeeds and no CDN is contacted. *)
Theorem auto_fetches_local_copy_first
  (env : string -> scriptEvent) (cfg : ChartConfig.config) (w : window)
  (Habsent : ApexCharts w = false)
  (Hlocal : String.eqb (ChartConfig.loadStrategy cfg) "local" = false)
  (Hcdn : String.eqb (ChartConfig.loadStrategy cfg) "cdn" = false) :
  (exists later,
      requests (snd (ChartConfig.load env cfg w))
      = requests w ++ ChartConfig.localPath cfg :: later)
  /\ (env (ChartConfig.localPath cfg) = Onload true ->
      fst (ChartConfig.load env cfg w) = Resolved
      /\ requests (snd (ChartConfig.load env cfg w))
         = requests w ++ [ChartConfig.localPath cfg]).
Proof.
  destruct (ChartConfig.load env cfg w) as [r w'] eqn:E.
  pose proof E as E0.
  unfold ChartConfig.load in E. rewrite Habsent, Hlocal, Hcdn in E.
  unfold ChartConfig.loadAuto, ChartConfig.loadLocal in E.
  destruct (ChartConfig.loadScript env (ChartConfig.localPath cfg) w)
    as [[|e] w1] eqn:E1;
    destruct (local_loadScript_inv _ _ _ _ _ E1) as (Hs & Hr & _ & Hgood).
  - injection E as <- <-. simpl.
    destruct (scripts_local_debugLog cfg "Apex Charts načten lokálně" w1)
      as (_ & -> & _).
    split; [exists []; exact Hr|]. intros _. split; [reflexivity|exact Hr].
  - split.
    + unfold ChartConfig.loadCDN in E.
      destruct (ChartConfig.loadCDN_from env _ _) as [[|e'] w2] eqn:E2;
        injection E as <- <-;
        destruct (loadCDN_from_inv _ _ _ _ _ E2) as (tried & _ & _ & _ & Hr2 & _);
        simpl in Hr2; exists tried; simpl.
      * destruct (scripts_local_debugLog cfg "Apex Charts načten z CDN" w2)
          as (_ & -> & _).
        rewrite Hr2, Hr, <- app_assoc. reflexivity.
      * rewrite Hr2, Hr, <- app_assoc. reflexivity.
    + intros He. specialize (Hgood Habsent He). discriminate.
Qed.

Lemma auto_fetches_local_copy_first_witness :
  fst (ChartConfig.load localLoads ChartConfig.OIG_CHART_CONFIG blank) = Resolved
  /\ requests (snd (ChartConfig.load localLoads ChartConfig.OIG_CHART_CONFIG blank))
     = ["/oig_cloud_static/apex-charts.min.js"].
Proof.
  destruct (auto_fetches_local_copy_first localLoads ChartConfig.OIG_CHART_CONFIG
              blank eq_refl eq_refl eq_refl) as [_ H].
  exact (H eq_refl).
Defined.

(** *** Retrying *)







End LoaderMoreFacts.

(* ===================================================================== *)
(** ** Further properties of the dashboard *)
(* ===================================================================== *)

Module DashboardMoreFacts.
Import JS Dashboard DashboardSpec DashboardMoreSpec.

Lemma spotPrices_length (parse : string -> Z) (tl : list timelinePoint) :
  List.length (spotPricesOf parse tl) = List.length (filter priced tl).
Proof.
  induction tl as [|p r IH]; simpl; [reflexivity|].
  unfold priced at 1. destruct (spot_price_czk p); simpl; now rewrite ?IH.
Qed.

Lemma chargingPeriods_incl (parse : string -> Z) (tl : list timelinePoint) :
  incl (chargingPeriodsOf parse tl)
       (map (fun p => (parse (timestamp p), battery_capacity_kwh p)) tl).
Proof.
  induction tl as [|p r IH]; simpl.
  - apply incl_refl.
  - destruct (is_charging p); simpl.
    + apply incl_cons; [now left|]. now apply incl_tl.
    + now apply incl_tl.
Qed.

(** X15.  In the options of the battery chart the production and the
    capacity series have one datum per point of the timeline, at the same
    instants and in the order of the timeline; every datum of the charging
    series is a datum of the capacity series; and there is one annotation
    per point with a spot price. *)
Theorem battery_chart_series_follow_timeline
  (parse : string -> Z) (isDark : bool) (a : attributes)
  (timelineData : list timelinePoint) :
  exists production capacity charging,
    battery_series (batteryChartOptions parse isDark a timelineData)
    = [production; capacity; charging]
    /\ map fst (data production) = map (fun p => parse (timestamp p)) timelineData
    /\ map fst (data capacity) = map (fun p => parse (timestamp p)) timelineData
    /\ map snd (data production) = map solar_production_w timelineData
    /\ map snd (data capacity) = map battery_capacity_kwh timelineData
    /\ incl (data charging) (data capacity)
    /\ List.length (annotations_points (batteryChartOptions parse isDark a timelineData))
       = List.length (filter priced timelineData).
Proof.
  eexists. eexists. eexists. split; [reflexivity|]. simpl.
  rewrite !map_map. simpl. repeat split; try reflexivity.
  - apply chargingPeriods_incl.
  - rewrite length_map. apply spotPrices_length.
Qed.

(** *** Refreshes *)







(** X17.  When the state of the battery entity has no timeline, or an empty
    one, [renderBatteryChart] keeps the chart the dashboard held, without
    destroying it; it writes the placeholder into the container when the
    state has attributes, and does nothing at all when the state or its
    attributes are missing. *)
Theorem battery_chart_without_timeline (h : host) (sd : option sensorData)
  (d : dashboard) (Hempty : hasTimeline sd = false) :
  let d' := renderBatteryChart h sd d in
  charts_battery d' = charts_battery d
  /\ destroyed d' = destroyed d
  /\ (hasAttributes sd = true
      -> innerHTML d' = ("battery-chart", noData) :: innerHTML d)
  /\ (hasAttributes sd = false -> d' = d).
Proof.
  unfold renderBatteryChart, hasTimeline, hasAttributes in *.
  destruct sd as [[[a|]]|]; simpl in *; try (repeat split; auto; discriminate).
  destruct (timeline_data a) as [[|p tl]|]; simpl in *;
    try discriminate; repeat split; auto; discriminate.
Qed.

Lemma battery_chart_without_timeline_witness :
  charts_battery
    (renderBatteryChart noSensors
       (Some (mkSensorData
                (Some (mkAttributes (Some []) Undefined Undefined None None None))))
       (loadAndRenderCharts batteryOnly bothGiven))
  = charts_battery (loadAndRenderCharts batteryOnly bothGiven)
  /\ charts_battery (loadAndRenderCharts batteryOnly bothGiven) <> None.
Proof.
  split.
  - apply (battery_chart_without_timeline noSensors
             (Some (mkSensorData
                      (Some (mkAttributes (Some []) Undefined Undefined None None None))))
             (loadAndRenderCharts batteryOnly bothGiven) eq_refl).
  - vm_compute. discriminate.
Defined.

End DashboardMoreFacts.

(* ===================================================================== *)
(** ** Properties of the card *)
(* ===================================================================== *)

Module CardFacts.
Import JS Browser ForecastCard ForecastCardSeries Card CardSpec.

Lemma updateChart_frame (env : environment) (c : card) (p : page) :
  let '(r, c', p') := updateChart env c p in
  chartBox c' = chartBox c /\ instances c' = instances c
  /\ config c' = config c /\ hass c' = hass c
  /\ window_ p' = window_ p /\ ApexChartsLoader p' = ApexChartsLoader p
  /\ (chart c = None -> c' = c /\ p' = p /\ r = Returns)
  /\ (chart c <> None -> chart c' <> None).
Proof.
  unfold updateChart.
  destruct (chart c) as [ch|] eqn:Ec; [|repeat split; auto].
  assert (chart c <> None) as Hc by (rewrite Ec; discriminate).
  destruct (hass c) as [st|] eqn:Eh; [|repeat split; auto; discriminate].
  destruct (config c) as [id|] eqn:Eg; [|repeat split; auto; discriminate].
  destruct (st id) as [e|]; simpl; repeat split; auto; discriminate.
Qed.

(** X18.  When the loader is defined and its [load] succeeds, a card that
    has been rendered and configured gets a chart: [loadChartsLibrary]
    creates one instance (also when the card held one already), renders it
    in the element [#chart], whose markup is still the spinner
    [showLoading] wrote, and, if the states hold the entity of the card,
    gives it the series [prepareSeries] makes of the attributes. *)
Theorem library_loaded_then_chart_drawn
  (env : environment) (c : card) (p : page) (b : box) (entityId : string)
  (Hloader : ApexChartsLoader p = true)
  (Hrendered : chartBox c = Some b)
  (Hconfig : config c = Some entityId)
  (Hload : fst (ChartLoader.load (cdn env) (chartConfig env) (window_ p)) = Resolved) :
  let '(pr, c', p') := loadChartsLibrary env c p in
  pr = Done
  /\ chartBox c' = Some (mkBox (Spinner "Načítání grafu...") true)
  /\ instances c' = S (instances c)
  /\ exists ch,
       chart c' = Some ch
       /\ marker ch = clock env (reads p)
       /\ forall st e, hass c = Some st -> st entityId = Some e ->
            shown ch = prepareSeries (Date_parse env) (clock env) (times09 env)
                                     (S (reads p)) (buckets e) (others e).
Proof.
  unfold loadChartsLibrary, done, loadAndInit. rewrite Hloader.
  destruct (ChartLoader.load (cdn env) (chartConfig env) (window_ p)) as [r w] eqn:E.
  simpl in Hload. subst r.
  apply LoaderFacts.load_resolved in E.
  unfold initChart, showLoading, setBox. simpl. rewrite E, Hrendered. simpl.
  unfold updateChart. simpl. rewrite Hconfig.
  destruct (hass c) as [st|] eqn:Eh; simpl.
  - destruct (st entityId) as [e|] eqn:Ee; simpl.
    + repeat split. eexists. repeat split. intros st' e' Hst He.
      injection Hst as <-. rewrite Ee in He. injection He as <-. reflexivity.
    + repeat split. eexists. repeat split. intros st' e' Hst He.
      injection Hst as <-. congruence.
  - repeat split. eexists. repeat split. discriminate.
Qed.

Lemma library_loaded_then_chart_drawn_witness :
  let '(pr, c', p') :=
    loadChartsLibrary working
      (render (mkCard (Some "sensor.battery") (Some states) None None None 0))
      loaderPage in
  chartBox c' = Some (mkBox (Spinner "Načítání grafu...") true)
  /\ instances c' = 1%nat.
Proof.
  pose proof (library_loaded_then_chart_drawn working
                (render (mkCard (Some "sensor.battery") (Some states) None None None 0))
                loaderPage (mkBox Empty false) "sensor.battery"
                eq_refl eq_refl eq_refl eq_refl) as H.
  destruct (loadChartsLibrary working _ loaderPage) as [[pr c'] p'].
  destruct H as (_ & H1 & H2 & _). split; assumption.
Defined.

Lemma caught_box (e : Error) (c : card) (p : page) (b : box) :
  chartBox c = Some b ->
  chartBox (fst (caught e c p)) = Some (mkBox (ErrorPanel unavailable) false).
Proof. intros H. simpl. now rewrite H. Qed.

(** X19.  On a card that has been rendered, [loadChartsLibrary], once done,
    leaves the element [#chart] in one of two states: a chart rendered
    into it, with the spinner the card wrote before loading still its
    markup (the card never takes the spinner away), or the error panel and
    no chart.  While it is suspended on the loader script it has not shown
    the spinner and has left the card as it was. *)
Theorem loading_ends_in_chart_over_spinner_or_error_panel
  (env : environment) (c : card) (p : page) (b : box)
  (Hrendered : chartBox c = Some b) :
  let '(pr, c', p') := loadChartsLibrary env c p in
  (pr = Done ->
   chartBox c' = Some (mkBox (Spinner "Načítání grafu...") true)
   \/ chartBox c' = Some (mkBox (ErrorPanel unavailable) false))
  /\ (pr = Suspended -> c' = c).
Proof.
  assert (forall p0,
             let cp := loadAndInit env c p0 in
             chartBox (fst cp) = Some (mkBox (Spinner "Načítání grafu...") true)
             \/ chartBox (fst cp) = Some (mkBox (ErrorPanel unavailable) false))
    as Hinit.
  { intros p0. unfold loadAndInit.
    assert (chartBox (showLoading "Načítání grafu..." c)
            = Some (mkBox (Spinner "Načítání grafu...") false)) as Hspin
        by (simpl; now rewrite Hrendered).
    destruct (ApexChartsLoader p0);
      [|right; eapply caught_box; exact Hspin].
    destruct (ChartLoader.load _ _ _) as [[|e] w] eqn:E;
      [|right; eapply caught_box; exact Hspin].
    apply LoaderFacts.load_resolved in E.
    unfold initChart. simpl window_. rewrite E, Hspin.
    match goal with
    | |- context [updateChart env ?c1 ?p1] =>
        pose proof (updateChart_frame env c1 p1) as Hu;
        destruct (updateChart env c1 p1) as [[r c2] p2]
    end.
    destruct Hu as (Hbox & _). simpl in Hbox.
    destruct r as [|e]; simpl.
    - left. exact Hbox.
    - right. now rewrite Hbox. }
  unfold loadChartsLibrary, done.
  destruct (ApexChartsLoader p).
  - split; [intros _; apply Hinit|discriminate].
  - destruct (loadScript env loaderPath p) as [[[|e]|] p1]; simpl.
    + split; [intros _; apply Hinit|discriminate].
    + split; [intros _; right; now rewrite Hrendered|discriminate].
    + split; [discriminate|reflexivity].
Qed.

(** A card connected to a page where the library loads ends with the chart
    rendered and the spinner still the markup of the element; where every
    CDN times out it ends with the error panel. *)
Lemma loading_ends_in_chart_over_spinner_or_error_panel_witness :
  (let '(pr, c', p') := connectedCallback working configured emptyPage in
   pr = Done
   /\ chartBox c' = Some (mkBox (Spinner "Načítání grafu...") true))
  /\ (let '(pr, c', p') := connectedCallback offline configured emptyPage in
      pr = Done
      /\ chartBox c' = Some (mkBox (ErrorPanel unavailable) false)
      /\ chart c' = None).
Proof.
  pose proof (loading_ends_in_chart_over_spinner_or_error_panel working
                (render configured) emptyPage (mkBox Empty false) eq_refl) as H.
  unfold connectedCallback. split.
  - destruct (loadChartsLibrary working (render configured) emptyPage)
      as [[pr c'] p'] eqn:E.
    vm_compute in E. injection E as <- <- <-.
    split; reflexivity.
  - destruct (loadChartsLibrary offline (render configured) emptyPage)
      as [[pr c'] p'] eqn:E.
    vm_compute in E. injection E as <- <- <-.
    repeat split.
Defined.

(** X20.  For a configured card that has neither states nor chart yet, it
    makes no difference whether the states arrive before the card is
    connected or after: the card and the page end up the same, the chart
    (if the library could be loaded) showing the series of those states. *)
Theorem states_and_library_in_either_order
  (env : environment) (s : string -> option entity) (c : card) (p : page)
  (entityId : string)
  (Hconfig : config c = Some entityId)
  (Hstates : hass c = None)
  (Hchart : chart c = None) :
  hassThenConnect env s c p = connectThenHass env s c p.
Proof.
  destruct c as [cfg h ch cb sb n]. simpl in *. subst cfg h ch.
  unfold hassThenConnect, connectThenHass, connectedCallback, set_hass,
    loadChartsLibrary, done, loadAndInit, caught, loadScript, render,
    showLoading, showError, setBox, initChart, updateChart.
  simpl.
  destruct (ApexChartsLoader p) eqn:EL; simpl.
  - destruct (ChartLoader.load (cdn env) (chartConfig env) (window_ p))
      as [[|e] w]; simpl; [|reflexivity].
    destruct (ApexCharts w); simpl; [|reflexivity].
    destruct (s entityId); reflexivity.
  - destruct (hasScript loaderPath (window_ p)); simpl.
    + rewrite EL. reflexivity.
    + destruct (loaderScript env) as [[|]| |]; simpl; rewrite ?EL; simpl;
        try reflexivity.
      destruct (ChartLoader.load (cdn env) (chartConfig env)
                  (appendScript loaderPath (window_ p))) as [[|e] w];
        simpl; [|reflexivity].
      destruct (ApexCharts w); simpl; [|reflexivity].
      destruct (s entityId); reflexivity.
Qed.

Lemma states_and_library_in_either_order_witness :
  hassThenConnect working states configured emptyPage
  = connectThenHass working states configured emptyPage
  /\ exists ch, chart (fst (hassThenConnect working states configured emptyPage))
                = Some ch
                /\ List.length (shown ch) = 2%nat.
Proof.
  split.
  - apply (states_and_library_in_either_order working states configured emptyPage
             "sensor.battery"); reflexivity.
  - eexists. split; vm_compute; reflexivity.
Defined.

End CardFacts.

(* ===================================================================== *)
(** ** Properties of the access to Home Assistant *)
(* ===================================================================== *)

Module HomeAssistantFacts.
Import JS HomeAssistant HomeAssistantSpec.

Lemma findState_id (entityId : string) (states : list stateObject)
  (s : stateObject) :
  DashboardData.findState entityId states = Some s ->
  In s states /\ entity_id s = entityId.
Proof.
  unfold DashboardData.findState. intros H. apply find_some in H.
  destruct H as [Hin He]. apply String.eqb_eq in He. auto.
Qed.

(** X21.  When [window.hassConnection] is defined, [getSensorData] of the
    dashboard makes no request with [fetch] and reads no token, whatever
    the connection does; the state it returns, if any, is one of the states
    the connection gave and has the entity id asked for. *)
Theorem dashboard_connection_bypasses_rest
  (b : browser) (conn : connection) (entityId : string)
  (Hconn : hassConnection b = Some conn) :
  snd (fst (DashboardData.getSensorData b entityId)) = []
  /\ (forall local session read sh f,
         DashboardData.getSensorData
           (mkBrowser (Some conn) local session read sh f) entityId
         = DashboardData.getSensorData b entityId)
  /\ (forall s, fst (fst (DashboardData.getSensorData b entityId)) = Some s ->
        entity_id s = entityId
        /\ exists send states,
             sendMessagePromise conn = Some send
             /\ send None = Fulfils states /\ In s states).
Proof.
  unfold DashboardData.getSensorData, DashboardData.getDirectSensorData.
  rewrite Hconn. simpl.
  destruct (sendMessagePromise conn) as [send|] eqn:Es; simpl.
  - destruct (send None) as [states|e] eqn:E; simpl.
    + repeat split; auto.
      * apply findState_id in H. tauto.
      * apply findState_id in H. exists send, states. tauto.
    + repeat split; auto; discriminate.
  - repeat split; auto; discriminate.
Qed.

Lemma dashboard_connection_bypasses_rest_witness :
  DashboardData.getSensorData connected "sensor.oig_2206237016_battery_forecast"
  = (Some batteryState, [], []).
Proof.
  destruct (dashboard_connection_bypasses_rest connected
              (mkConnection (Some (fun _ => Fulfils [batteryState])))
              "sensor.oig_2206237016_battery_forecast" eq_refl) as (_ & _ & _).
  reflexivity.
Defined.

(** X22.  Without a connection, [getSensorData] of the dashboard makes at
    most one request: none when [getHAToken] gives no truthy token, and
    otherwise one, for the state of the entity, bearing that token.  It
    returns a state only if the response to that request is ok and its body
    could be read; in every other case it returns [null] after one
    [console.error]. *)
Theorem dashboard_rest_request
  (b : browser) (entityId : string) (Hconn : hassConnection b = None) :
  let '(s, reqs, out) := DashboardData.getSensorData b entityId in
  let req := mkRequest (stateUrl entityId) (bearer b (DashboardData.getHAToken b)) in
  reqs = (if truthy (DashboardData.getHAToken b) then [req] else [])
  /\ (forall st, s = Some st ->
        truthy (DashboardData.getHAToken b) = true
        /\ exists r, fetch b req = Fulfils r /\ ok r = true /\ json r = Fulfils st)
  /\ (s = None -> List.length out = 1%nat)
  /\ (s <> None -> out = []).
Proof.
  unfold DashboardData.getSensorData, DashboardData.getDirectSensorData.
  rewrite Hconn.
  destruct (truthy (DashboardData.getHAToken b)) eqn:Et; simpl.
  - destruct (fetch b _) as [r|e] eqn:Ef; simpl.
    + destruct (ok r) eqn:Eo; simpl.
      * destruct (json r) as [st|e] eqn:Ej; simpl.
        -- repeat split; auto; try discriminate.
           match goal with
           | H : Some _ = Some _ |- _ => injection H as <-
           end.
           exists r. auto.
        -- repeat split; auto; try discriminate. intros N. now contradiction N.
      * repeat split; auto; try discriminate. intros N. now contradiction N.
    + repeat split; auto; try discriminate. intros N. now contradiction N.
  - repeat split; auto; try discriminate. intros N. now contradiction N.
Qed.

Lemma dashboard_rest_request_witness :
  DashboardData.getSensorData sessionOnly "sensor.oig_2206237016_battery_forecast"
  = (Some batteryState,
     [mkRequest "/api/states/sensor.oig_2206237016_battery_forecast" "Bearer abc"],
     []).
Proof.
  pose proof (dashboard_rest_request sessionOnly
                "sensor.oig_2206237016_battery_forecast" eq_refl) as H.
  destruct (DashboardData.getSensorData sessionOnly _) as [[s reqs] out] eqn:E.
  destruct H as (Hreqs & _ & _ & _).
  vm_compute in E. injection E as <- <- <-. reflexivity.
Defined.

(** X23.  An item in the local storage shadows the one in the session
    storage: when the local item is there but cannot be parsed,
    [getHAToken] gives [null] whatever the session storage holds, and the
    dashboard, without a connection, makes no request and returns
    [null]. *)
Theorem malformed_local_item_blocks_rest
  (b : browser) (entityId : string) (e : Error)
  (Hconn : hassConnection b = None)
  (Hlocal : present (localTokens b) = true)
  (Hbad : access_token_of b (itemText (localTokens b)) = ParseThrows e) :
  DashboardData.getHAToken b = Null
  /\ DashboardData.getSensorData b entityId
     = (None, [],
        [console_error [("Error fetching " ++ entityId ++ ":")%string;
                        message DashboardData.unableToFetch]]).
Proof.
  assert (DashboardData.getHAToken b = Null) as Ht.
  { unfold DashboardData.getHAToken. now rewrite Hlocal, Hbad. }
  split; [exact Ht|].
  unfold DashboardData.getSensorData, DashboardData.getDirectSensorData.
  rewrite Hconn, Ht. reflexivity.
Qed.

Lemma malformed_local_item_blocks_rest_witness :
  DashboardData.getHAToken malformedLocal = Null
  /\ DashboardData.getHAToken sessionOnly = Str "abc".
Proof.
  destruct (malformed_local_item_blocks_rest malformedLocal "sensor.x"
              (mkError "Unexpected token") eq_refl eq_refl eq_refl) as [H _].
  split; [exact H|reflexivity].
Defined.

(** The two models of [getSensorData] agree: the dashboard, reading
    through the browser [b], gets the state the browser-side run returns
    and logs what that run logs. *)
Lemma getSensorData_hostOf (b : browser) (entityId : string)
  (d : Dashboard.dashboard) :
  fst (Dashboard.getSensorData (hostOf b) entityId d)
  = option_map state (fst (fst (DashboardData.getSensorData b entityId)))
  /\ Dashboard.console (snd (Dashboard.getSensorData (hostOf b) entityId d))
     = Dashboard.console d ++ snd (DashboardData.getSensorData b entityId).
Proof.
  unfold Dashboard.getSensorData, hostOf, DashboardData.directReadOf,
    DashboardData.getSensorData. simpl.
  destruct (DashboardData.getDirectSensorData b entityId) as [[s|e] reqs]; simpl.
  - rewrite app_nil_r. split; reflexivity.
  - split; reflexivity.
Qed.

(** X24.  A dashboard whose browser has neither connection nor token
    draws nothing: a run of [loadAndRenderCharts] changes no chart, no
    markup and no timer, and leaves in the console exactly three
    [console.error] entries, one for each sensor it failed to read, in the
    order battery forecast, solar forecast, spot prices, each with the
    message "Unable to fetch sensor data". *)
Theorem refresh_without_credentials (b : browser) (d : Dashboard.dashboard)
  (Hconn : hassConnection b = None)
  (Hlocal : present (localTokens b) = false)
  (Hsession : present (sessionTokens b) = false) :
  Dashboard.loadAndRenderCharts (hostOf b) d
  = Dashboard.log (unableToFetchLogged (Dashboard.inverterSn d) "spot_prices_current")
      (Dashboard.log (unableToFetchLogged (Dashboard.inverterSn d) "solar_forecast")
         (Dashboard.log (unableToFetchLogged (Dashboard.inverterSn d) "battery_forecast")
            d)).
Proof.
  assert (forall id, DashboardData.directReadOf b id
                     = Dashboard.Threw DashboardData.unableToFetch) as Hthrew.
  { intros id. unfold DashboardData.directReadOf,
      DashboardData.getDirectSensorData, DashboardData.getHAToken.
    rewrite Hconn, Hlocal, Hsession. reflexivity. }
  unfold Dashboard.loadAndRenderCharts, Dashboard.getSensorData, hostOf.
  simpl. rewrite !Hthrew. reflexivity.
Qed.

Lemma refresh_without_credentials_witness :
  Dashboard.console
    (Dashboard.loadAndRenderCharts (hostOf anonymous) DashboardSpec.bothGiven)
  = [console_error ["Error fetching sensor.oig_2206237016_battery_forecast:";
                    "Unable to fetch sensor data"];
     console_error ["Error fetching sensor.oig_2206237016_solar_forecast:";
                    "Unable to fetch sensor data"];
     console_error ["Error fetching sensor.oig_2206237016_spot_prices_current:";
                    "Unable to fetch sensor data"]].
Proof.
  rewrite (refresh_without_credentials anonymous DashboardSpec.bothGiven eq_refl
             eq_refl eq_refl).
  reflexivity.
Defined.

(** *** The bridge *)

(** X25.  The bridge answers a message of type [get_sensor_data] with
    exactly one message, posted to the window and the origin the request
    came from, of type [sensor_data_response] and with the entity id of the
    request; the answer carries either the data or, with data [null], the
    message of the error.  To any other message it does not react at
    all. *)
Theorem bridge_answers_each_request_once
  (b : browser) (event : HABridge.messageEvent) :
  (forall m, HABridge.data event = Some m ->
             HABridge.type m = "get_sensor_data" ->
     exists p,
       fst (fst (HABridge.onMessage b event)) = [p]
       /\ HABridge.target p = HABridge.source event
       /\ HABridge.targetOrigin p = HABridge.origin event
       /\ HABridge.reply_type p = "sensor_data_response"
       /\ HABridge.reply_entityId p = HABridge.entityId m
       /\ (HABridge.reply_data p = None <-> HABridge.reply_error p <> None))
  /\ ((forall m, HABridge.data event = Some m ->
                 HABridge.type m <> "get_sensor_data") ->
      HABridge.onMessage b event = ([], [], [])).
Proof.
  unfold HABridge.onMessage. split.
  - intros m Hm Ht. rewrite Hm, Ht. simpl.
    destruct (HABridge.getEntityState b (HABridge.entityId m)) as [[r|e] reqs];
      simpl; eexists; (split; [reflexivity|]); simpl; repeat split; auto;
      try discriminate; intros N; now contradiction N.
  - intros H. destruct (HABridge.data event) as [m|]; [|reflexivity].
    specialize (H m eq_refl). apply String.eqb_neq in H. now rewrite H.
Qed.

Lemma bridge_answers_each_request_once_witness :
  fst (fst (HABridge.onMessage sessionOnly ask))
  = [HABridge.mkPosted "iframe" "http://homeassistant.local:8123"
       "sensor_data_response" "sensor.oig_2206237016_battery_forecast"
       (Some (HABridge.FromRest batteryState)) None].
Proof.
  destruct (bridge_answers_each_request_once sessionOnly ask) as [H _].
  destruct (H _ eq_refl eq_refl) as (p & Hp & _).
  vm_compute. reflexivity.
Defined.

(** X26.  When the connection has the method [sendMessagePromise], the
    bridge makes no request with [fetch] and reads no token: its reaction
    to a message is the same whatever the storages hold and whatever the
    REST interface would answer, also when the connection fails. *)
Theorem bridge_connection_bypasses_rest
  (b : browser) (conn : connection)
  (send : option string -> awaited (list stateObject))
  (event : HABridge.messageEvent)
  (Hconn : hassConnection b = Some conn)
  (Hsend : sendMessagePromise conn = Some send) :
  snd (fst (HABridge.onMessage b event)) = []
  /\ forall local session read sh f,
       HABridge.onMessage (mkBrowser (Some conn) local session read sh f) event
       = HABridge.onMessage b event.
Proof.
  unfold HABridge.onMessage, HABridge.getEntityState. simpl.
  rewrite Hconn, Hsend.
  destruct (HABridge.data event) as [m|]; [|auto].
  destruct (String.eqb (HABridge.type m) "get_sensor_data"); [|auto].
  destruct (send (Some (HABridge.entityId m))); auto.
Qed.

Lemma bridge_connection_bypasses_rest_witness :
  snd (fst (HABridge.onMessage connected ask)) = []
  /\ exists p, fst (fst (HABridge.onMessage connected ask)) = [p]
               /\ HABridge.reply_error p = None.
Proof.
  destruct (bridge_connection_bypasses_rest connected
              (mkConnection (Some (fun _ => Fulfils [batteryState])))
              (fun _ => Fulfils [batteryState]) ask eq_refl eq_refl) as [H _].
  split; [exact H|]. eexists. split; reflexivity.
Defined.

End HomeAssistantFacts.
